(** * Webcam servers: M-JPEG streaming and snapshot notification

    A shallow embedding of the two scripts of the repository,

    - [webcam_server-2.py] (continuous-stream mode, module [Stream]) and
    - [webcam_server.py] (snapshot-notify mode, module [Snapshot]),

    together with the properties their specification states about them.
    The library calls the scripts make (OpenCV, [http.server],
    [websockets], [asyncio], [json]) are modelled by their effect on an
    explicit state; what the outside world decides (which camera opens,
    what a read returns, whether a peer is still there) is an argument. *)

From Stdlib Require Import Strings.String Strings.Ascii Strings.Byte.
From Stdlib Require Import List Arith ZArith Lia DecimalString.
From stdpp Require Import base option list gmap strings.
Import ListNotations.

Local Open Scope string_scope.
Local Open Scope list_scope.

(** ** Python values shared by both scripts *)

Definition bytes := list byte.

(** [s.encode('latin-1')] on a string of 8-bit characters *)
Definition encode_latin1 (s : string) : bytes := list_byte_of_string s.

(** the two characters ["\r\n"], the line feed ["\n"], the quote and the
    backslash *)
Definition CRLF : string := String "013" (String "010" EmptyString).
Definition LF : string := String "010" EmptyString.
Definition DQUOTE : string := String "034" EmptyString.
Definition BACKSLASH : string := String "092" EmptyString.

(** [str(n)] for a non-negative integer *)
Definition py_str (n : nat) : string := NilZero.string_of_uint (Nat.to_uint n).

(** [s * n] *)
Fixpoint str_mul (s : string) (n : nat) : string :=
  match n with
  | O => EmptyString
  | S k => s +:+ str_mul s k
  end.

(** [sep.join(parts)] *)
Fixpoint str_join (sep : string) (parts : list string) : string :=
  match parts with
  | [] => EmptyString
  | [p] => p
  | p :: rest => p +:+ sep +:+ str_join sep rest
  end.

(** [c.lower()] on one ASCII character, and [s.lower()] *)
Definition ascii_lower (c : ascii) : ascii :=
  let n := nat_of_ascii c in
  if ((65 <=? n) && (n <=? 90))%nat then ascii_of_nat (n + 32) else c.

Fixpoint str_lower (s : string) : string :=
  match s with
  | EmptyString => EmptyString
  | String c r => String (ascii_lower c) (str_lower r)
  end.

(** *** [json.dumps] on a dict of strings *)

Definition hex_digit (n : nat) : string :=
  String (nth n ["0"; "1"; "2"; "3"; "4"; "5"; "6"; "7";
                 "8"; "9"; "a"; "b"; "c"; "d"; "e"; "f"]%char "0"%char)
         EmptyString.

(** [json.encoder.py_encode_basestring_ascii] on one 8-bit character *)
Definition json_escape_char (c : ascii) : string :=
  let n := nat_of_ascii c in
  if (n =? 34)%nat then BACKSLASH +:+ DQUOTE
  else if (n =? 92)%nat then BACKSLASH +:+ BACKSLASH
  else if (n =? 10)%nat then BACKSLASH +:+ "n"
  else if (n =? 13)%nat then BACKSLASH +:+ "r"
  else if (n =? 9)%nat then BACKSLASH +:+ "t"
  else if (n =? 8)%nat then BACKSLASH +:+ "b"
  else if (n =? 12)%nat then BACKSLASH +:+ "f"
  else if ((n <? 32) || (126 <? n))%nat then
    BACKSLASH +:+ "u00" +:+ hex_digit (n / 16) +:+ hex_digit (n mod 16)
  else String c EmptyString.

Fixpoint json_escape (s : string) : string :=
  match s with
  | EmptyString => EmptyString
  | String c r => json_escape_char c +:+ json_escape r
  end.

Definition json_string (s : string) : string :=
  DQUOTE +:+ json_escape s +:+ DQUOTE.

(** a dict literal, in insertion order *)
Definition dict := list (string * string).

Fixpoint dict_get (key : string) (d : dict) : option string :=
  match d with
  | [] => None
  | (k, v) :: rest => if String.eqb k key then Some v else dict_get key rest
  end.

(** [json.dumps(d)] with the default separators *)
Definition json_dumps (d : dict) : string :=
  "{" +:+ str_join ", "
            (map (fun kv => json_string kv.1 +:+ ": " +:+ json_string kv.2) d)
      +:+ "}".

(** *** Reading a serialized object back, as a subscriber does *)









(** *** Calls that may raise: a state-and-exception monad *)

Inductive exn : Type :=
| BrokenPipeError      (* a socket write after the peer has gone *)
| FileNotFoundError
| NotADirectoryError
| PermissionError
| OSError              (* any other [OSError], as for an address in use *)
| AttributeError
| CvError              (* [cv2.error] *)
| KeyError             (* [set.remove] of an absent element *)
| ConnectionClosed.    (* [websocket.send] on a closed connection *)

(** what a call that touches no state of ours comes to *)
Inductive call (A : Type) : Type :=
| Returns (a : A)
| Raises (e : exn).
Arguments Returns {A} a.
Arguments Raises {A} e.

Inductive result (S A : Type) : Type :=
| Ok (a : A) (s : S)
| Raise (e : exn) (s : S).
Arguments Ok {S A} a s.
Arguments Raise {S A} e s.

(** the state a call leaves behind, however it ended *)
Definition final {S A} (r : result S A) : S :=
  match r with
  | Ok _ s => s
  | Raise _ s => s
  end.

Definition M (S A : Type) : Type := S -> result S A.

#[export] Instance M_ret {S} : MRet (M S) := fun A (a : A) s => Ok a s.

#[export] Instance M_bind {S} : MBind (M S) :=
  fun A B (f : A -> M S B) (m : M S A) s =>
    match m s with
    | Ok a s' => f a s'
    | Raise e s' => Raise e s'
    end.

(** [try: m  except Exception as e: ...], the handler being the caller's
    match on the sum *)
Definition try_ {S A} (m : M S A) : M S (A + exn) := fun s =>
  match m s with
  | Ok a s' => Ok (inl a) s'
  | Raise e s' => Ok (inr e) s'
  end.

(** why a function returned *)
Inductive exit : Type :=
| DeviceUnavailable    (* no camera index opened *)
| StaticRootMissing    (* the directory to serve does not exist *)
| CaptureError         (* [cap.read()] gave [ret == False] *)
| Swallowed            (* an exception caught by [except Exception: pass] *)
| Quit                 (* the quit key *)
| Interrupted.         (* KeyboardInterrupt *)

(** how a function with an endless loop stands once the inputs the
    outside world has delivered so far are used up *)
Inductive status : Type :=
| StillRunning             (* inside the loop, waiting for more *)
| Done (why : exit).       (* it has returned *)

(** *** The outside world as both scripts see it *)

(** a [cv2.VideoCapture] object *)
Record Capture := mkCapture {
  index : nat;
  isOpened : bool
}.

(** a websocket connection object, told apart by its identity *)
Definition Client := nat.

Inductive Event : Type :=
| EvPrint (line : string)
| EvVideoCapture (idx : nat)
| EvCapSet (cap : Capture) (prop : string) (value : N)
| EvCapRead (cap : Capture)
| EvCapRelease (cap : Capture)
| EvChdir (dir : string)
| EvHttpBind (host : string) (port : N)
| EvServeForever
| EvServerClose
| EvThreadStart (target : string)
| EvWsListen (host : string) (port : N)
| EvWsShutdown
| EvNamedWindow (name : string)
| EvImshow (name : string)
| EvWaitKey
| EvSetFullscreen (on : bool)
| EvDestroyAllWindows
| EvImwrite (filename : string) (data : bytes)
| EvSend (client : Client) (message : string) (delivered : bool)
| EvSetAdd (client : Client)
| EvSetRemove (client : Client)
| EvTaskFailed (e : exn)
| EvSleep.

(** the camera indices tried, in order *)
Definition open_attempts (t : list Event) : list nat :=
  omap (fun ev => match ev with EvVideoCapture i => Some i | _ => None end) t.

(** the capture objects a run operates on after opening *)
Definition captures_used (t : list Event) : list Capture :=
  omap (fun ev => match ev with
                  | EvCapSet c _ _ | EvCapRead c | EvCapRelease c => Some c
                  | _ => None
                  end) t.



(** how many removals from the client set a stretch of events holds *)
Definition removals_in (t : list Event) : nat :=
  length (List.filter (fun ev => match ev with
                                 | EvSetRemove _ => true
                                 | _ => false
                                 end) t).

(** how often a client was taken out of the client set *)
Definition is_removal (c : Client) (ev : Event) : bool :=
  match ev with
  | EvSetRemove c' => Nat.eqb c' c
  | _ => false
  end.

Definition removals (c : Client) (t : list Event) : nat :=
  length (List.filter (is_removal c) t).

(** events that put a listening socket in place *)
Definition is_listen (ev : Event) : bool :=
  match ev with
  | EvHttpBind _ _ | EvWsListen _ _ => true
  | _ => false
  end.

(** how many handler tasks ended in an exception *)
Definition task_failures (t : list Event) : nat :=
  length (List.filter (fun ev => match ev with
                                 | EvTaskFailed _ => true
                                 | _ => false
                                 end) t).

(** what the connection handlers do: they touch the client set and print *)
Definition handler_event (ev : Event) : bool :=
  match ev with
  | EvSetAdd _ | EvSetRemove _ | EvPrint _ | EvTaskFailed _ => true
  | _ => false
  end.



(** no listening socket is put in place before some camera index has
    opened *)
Fixpoint listens_only_once_open (device_opens : nat -> bool) (opened : bool)
    (t : list Event) : bool :=
  match t with
  | [] => true
  | EvVideoCapture i :: rest =>
      listens_only_once_open device_opens (opened || device_opens i) rest
  | ev :: rest =>
      (negb (is_listen ev) || opened)
      && listens_only_once_open device_opens opened rest
  end.

(** ** Continuous-stream mode: [webcam_server-2.py] *)
Module Stream.

Definition HTTP_PORT : N := 8000.
Definition SERVER_HOST : string := "0.0.0.0".
Definition HTTP_ROOT_DIR : string := "display".

(** *** The request handler's state

    What [BaseHTTPRequestHandler] keeps for one connection, and what the
    process prints and sleeps while serving it. *)
Record Handler := mkHandler {
  request_version : string;     (* self.request_version *)
  close_connection : bool;      (* self.close_connection *)
  headers_buffer : option (list bytes);
                                (* self._headers_buffer, [None] while the
                                   attribute is not set *)
  wfile : bytes;                (* all bytes sent to the peer so far *)
  peer_writes : nat;            (* socket writes the peer still accepts *)
  access_log : list nat;        (* status codes given to log_request *)
  stdout : list string;         (* lines printed *)
  sleeps : nat                  (* calls of time.sleep(FRAME_DELAY) *)
}.

(** a connection whose request has just been parsed: [version] is what
    [parse_request] found on the request line, ["HTTP/0.9"] for a request
    line of two words such as [GET /video_feed] *)
Definition accepted (version : string) (close : bool) (writes : nat)
  : Handler :=
  mkHandler version close None [] writes [] [] 0.

Abbreviation IO := (M Handler).

(** [version != 'HTTP/0.9'] *)
Definition has_version (version : string) : bool :=
  negb (String.eqb version "HTTP/0.9").

(** [self.wfile.write(b)]: the socket is unbuffered, so every call is
    one send; it raises once the peer is gone. *)
Definition wfile_write (b : bytes) : IO unit := fun h =>
  match peer_writes h with
  | 0 => Raise BrokenPipeError h
  | S k => Ok tt (mkHandler (request_version h) (close_connection h)
                            (headers_buffer h) (wfile h ++ b) k
                            (access_log h) (stdout h) (sleeps h))
  end.

(** [if not hasattr(self, '_headers_buffer'): self._headers_buffer = []]
    and [self._headers_buffer.append(line.encode('latin-1', 'strict'))] *)
Definition buffer_header_line (line : string) : IO unit := fun h =>
  let buffer := match headers_buffer h with Some b => b | None => [] end in
  Ok tt (mkHandler (request_version h) (close_connection h)
                   (Some (buffer ++ [encode_latin1 line])) (wfile h)
                   (peer_writes h) (access_log h) (stdout h) (sleeps h)).

(** [self.close_connection = b] *)
Definition set_close_connection (b : bool) : IO unit := fun h =>
  Ok tt (mkHandler (request_version h) b (headers_buffer h) (wfile h)
                   (peer_writes h) (access_log h) (stdout h) (sleeps h)).

(** [self.log_request(code)] *)
Definition log_request (code : nat) : IO unit := fun h =>
  Ok tt (mkHandler (request_version h) (close_connection h)
                   (headers_buffer h) (wfile h) (peer_writes h)
                   (access_log h ++ [code]) (stdout h) (sleeps h)).

(** [print(line)] *)
Definition print (line : string) : IO unit := fun h =>
  Ok tt (mkHandler (request_version h) (close_connection h)
                   (headers_buffer h) (wfile h) (peer_writes h)
                   (access_log h) (stdout h ++ [line]) (sleeps h)).

(** [time.sleep(FRAME_DELAY)] *)
Definition sleep_frame_delay : IO unit := fun h =>
  Ok tt (mkHandler (request_version h) (close_connection h)
                   (headers_buffer h) (wfile h) (peer_writes h)
                   (access_log h) (stdout h) (S (sleeps h))).

(** the entry of [BaseHTTPRequestHandler.responses] for the one status
    code this handler sends itself *)
Definition responses (code : nat) : option string :=
  match code with
  | 200 => Some "OK"
  | _ => None
  end.

Definition protocol_version : string := "HTTP/1.0".

(** [self.send_response_only(code)]: nothing is buffered for a request
    without a protocol version *)
Definition send_response_only (code : nat) : IO unit := fun h =>
  if has_version (request_version h) then
    let message :=
      match responses code with Some m => m | None => EmptyString end in
    buffer_header_line
      (protocol_version +:+ " " +:+ py_str code +:+ " " +:+ message +:+ CRLF)
      h
  else Ok tt h.

(** [self.send_header(keyword, value)] *)
Definition send_header (keyword value : string) : IO unit :=
  (fun h =>
     if has_version (request_version h) then
       buffer_header_line (keyword +:+ ": " +:+ value +:+ CRLF) h
     else Ok tt h) ;;
  if String.eqb (str_lower keyword) "connection" then
    if String.eqb (str_lower value) "close" then set_close_connection true
    else if String.eqb (str_lower value) "keep-alive" then
      set_close_connection false
    else mret tt
  else mret tt.

(** [self.flush_headers()] *)
Definition flush_headers : IO unit := fun h =>
  match headers_buffer h with
  | Some buffer =>
      match wfile_write (concat buffer) h with
      | Ok _ h' =>
          Ok tt (mkHandler (request_version h') (close_connection h')
                           (Some []) (wfile h') (peer_writes h')
                           (access_log h') (stdout h') (sleeps h'))
      | Raise e h' => Raise e h'
      end
  | None => Ok tt h
  end.

(** [self.end_headers()]: for a request with a protocol version the empty
    line is appended to the buffer, which must exist, and the buffer is
    flushed; for one without, nothing is done *)
Definition end_headers : IO unit := fun h =>
  if has_version (request_version h) then
    match headers_buffer h with
    | Some buffer =>
        flush_headers
          (mkHandler (request_version h) (close_connection h)
                     (Some (buffer ++ [encode_latin1 CRLF])) (wfile h)
                     (peer_writes h) (access_log h) (stdout h) (sleeps h))
    | None => Raise AttributeError h
    end
  else Ok tt h.

Section Server.

(** a raw image as [cap.read()] returns it *)
Variable Frame : Type.

(** [cv2.imencode('.jpg', frame)]: it raises, or it returns a pair of
    which [None] stands for [ret == False] and [Some buffer] for the
    encoded array, one byte per element *)
Variable imencode : Frame -> call (option bytes).

(** [self.version_string()] and [self.date_time_string()] *)
Variable version_string : string.
Variable date_time_string : string.

(** [self.send_response(code)] *)
Definition send_response (code : nat) : IO unit :=
  log_request code ;;
  send_response_only code ;;
  send_header "Server" version_string ;;
  send_header "Date" date_time_string.

(** one pass of the loop body after a successful encode (lines 47-57) *)
Definition send_part (buffer : bytes) : IO unit :=
  wfile_write (encode_latin1 ("--frameboundary" +:+ CRLF)) ;;
  send_header "Content-Type" "image/jpeg" ;;
  send_header "Content-Length" (py_str (length buffer)) ;;
  end_headers ;;
  wfile_write buffer ;;
  wfile_write (encode_latin1 CRLF) ;;
  sleep_frame_delay.

(** the [while True] loop (lines 37-57); [reads] is what successive
    [cap.read()] calls return, [None] for [ret == False] *)
Fixpoint stream_loop (reads : list (option Frame)) : IO status :=
  match reads with
  | [] => mret StillRunning
  | None :: _ =>
      print "Error: Failed to capture frame." ;;
      mret (Done CaptureError)
  | Some frame :: rest =>
      match imencode frame with
      | Raises e => fun h => Raise e h
      | Returns None => stream_loop rest
      | Returns (Some buffer) => send_part buffer ;; stream_loop rest
      end
  end.

(** [CustomRequestHandler.stream_video_feed] *)
Definition stream_video_feed (reads : list (option Frame)) : IO status :=
  send_response 200 ;;
  send_header "Access-Control-Allow-Origin" "*" ;;
  send_header "Content-type"
              "multipart/x-mixed-replace; boundary=--frameboundary" ;;
  end_headers ;;
  r ← try_ (stream_loop reads);
  match r with
  | inl st => mret st
  | inr _ => mret (Done Swallowed)
  end.

(** [SimpleHTTPRequestHandler.do_GET], the static file collaborator *)
Variable static_do_GET : string -> IO status.

(** [CustomRequestHandler.do_GET] *)
Definition do_GET (path : string) (reads : list (option Frame)) : IO status :=
  if String.eqb path "/video_feed" then stream_video_feed reads
  else static_do_GET path.

End Server.

Arguments send_part buffer h : simpl never.
Arguments stream_loop {Frame} imencode reads.
Arguments stream_video_feed {Frame} imencode version_string date_time_string
  reads.
Arguments do_GET {Frame} imencode version_string date_time_string
  static_do_GET path reads.

(** *** What the specification says a client reads *)

(** a status line, the header lines and the empty line that ends them *)
Definition http_head (code : nat) (reason : string)
    (headers : list (string * string)) : bytes :=
  encode_latin1 ("HTTP/1.0 " +:+ py_str code +:+ " " +:+ reason +:+ CRLF)
  ++ concat (map (fun kv => encode_latin1 (kv.1 +:+ ": " +:+ kv.2 +:+ CRLF))
                 headers)
  ++ encode_latin1 CRLF.


(** the header fields of the response that opens the stream *)
Definition feed_headers (version_string date_time_string : string)
  : list (string * string) :=
  [("Server", version_string);
   ("Date", date_time_string);
   ("Access-Control-Allow-Origin", "*");
   ("Content-type", "multipart/x-mixed-replace; boundary=--frameboundary")].

(** what an encode hands to the loop: the buffer, if there is one *)
Definition encoding {Frame} (imencode : Frame -> call (option bytes))
    (f : Frame) : option bytes :=
  match imencode f with
  | Returns r => r
  | Raises _ => None
  end.

(** the encode of [f] returns, with or without a buffer *)
Definition encode_returns {Frame} (imencode : Frame -> call (option bytes))
    (f : Frame) : Prop :=
  exists r, imencode f = Returns r.

(** how many of the frames have an encode that reports failure *)
Definition encode_failures {Frame} (imencode : Frame -> call (option bytes))
    (frames : list Frame) : nat :=
  length (List.filter (fun f => match imencode f with
                                | Returns None => true
                                | _ => false
                                end) frames).

(** one part of the multipart body: boundary line, content type, content
    length, empty line, payload, trailing line end *)
Definition mjpeg_part (payload : bytes) : bytes :=
  encode_latin1 ("--frameboundary" +:+ CRLF)
  ++ encode_latin1 ("Content-Type: image/jpeg" +:+ CRLF)
  ++ encode_latin1 ("Content-Length: " +:+ py_str (length payload) +:+ CRLF
                    +:+ CRLF)
  ++ payload
  ++ encode_latin1 CRLF.

(** a part without its header lines *)
Definition bare_part (payload : bytes) : bytes :=
  encode_latin1 ("--frameboundary" +:+ CRLF) ++ payload ++ encode_latin1 CRLF.

(** the response head and a part as a request of the given version gets
    them, and the socket writes they take *)
Definition wire_head (version version_string date_time_string : string)
  : bytes :=
  if has_version version then
    http_head 200 "OK" (feed_headers version_string date_time_string)
  else [].

Definition wire_part (version : string) (payload : bytes) : bytes :=
  if has_version version then mjpeg_part payload else bare_part payload.

Definition head_writes (version : string) : nat :=
  if has_version version then 1 else 0.

Definition part_writes (version : string) : nat :=
  if has_version version then 4 else 3.

(** the header buffer between two parts *)
Definition idle_buffer (version : string) : option (list bytes) :=
  if has_version version then Some [] else None.

(** *** The process: [run_server] *)

Abbreviation Proc := (M (list Event)).

Definition emit (ev : Event) : Proc unit := fun t => Ok tt (t ++ [ev]).

Definition proc_print (line : string) : Proc unit := emit (EvPrint line).

Section Process.

(** whether [cv2.VideoCapture(i)] gets the device *)
Variable device_opens : nat -> bool.
(** what [os.chdir(HTTP_ROOT_DIR)] comes to: [None] if the directory is
    entered, else the exception raised ([FileNotFoundError] for a missing
    directory, [NotADirectoryError], [PermissionError], ...) *)
Variable chdir_error : option exn.
(** [os.getcwd()] after the change of directory *)
Variable getcwd : string.
(** whether the address to bind is free *)
Variable port_free : bool.
(** whether a KeyboardInterrupt has ended [serve_forever] *)
Variable interrupted : bool.

(** [cv2.VideoCapture(i)] *)
Definition VideoCapture (i : nat) : Proc Capture :=
  emit (EvVideoCapture i) ;; mret (mkCapture i (device_opens i)).

(** [os.chdir(dir)] *)
Definition chdir (dir : string) : Proc unit := fun t =>
  match chdir_error with
  | None => Ok tt (t ++ [EvChdir dir])
  | Some e => Raise e t
  end.

(** [ThreadedHTTPServer((host, port), CustomRequestHandler, cap)]: the
    constructor binds the socket and listens, or raises *)
Definition ThreadedHTTPServer (host : string) (port : N) : Proc unit :=
  fun t =>
  if port_free then Ok tt (t ++ [EvHttpBind host port])
  else Raise OSError t.

Definition url : string :=
  "http://" +:+ SERVER_HOST +:+ ":" +:+ py_str (N.to_nat HTTP_PORT).

(** [run_server] *)
Definition run_server : Proc status :=
  cap ← VideoCapture 0;
  cap ← (if negb (isOpened cap) then VideoCapture 1 else mret cap);
  if negb (isOpened cap) then
    proc_print "Error: Could not open webcam" ;;
    mret (Done DeviceUnavailable)
  else
    emit (EvCapSet cap "CAP_PROP_FRAME_WIDTH" 1280) ;;
    emit (EvCapSet cap "CAP_PROP_FRAME_HEIGHT" 720) ;;
    r ← try_ (chdir HTTP_ROOT_DIR ;;
              proc_print ("HTTP server root set to: " +:+ HTTP_ROOT_DIR));
    match r with
    | inr FileNotFoundError =>
        proc_print ("Error: Directory '" +:+ HTTP_ROOT_DIR +:+
          "' not found! Please create it and place your HTML file inside.") ;;
        emit (EvCapRelease cap) ;;
        mret (Done StaticRootMissing)
    | inr e => fun t => Raise e t
    | inl _ =>
        proc_print (LF +:+ str_mul "=" 50) ;;
        proc_print "M-JPEG Video Server Started!" ;;
        proc_print ("File Server Root: " +:+ getcwd) ;;
        proc_print ("Access Client: " +:+ url +:+ "/index-2.html") ;;
        proc_print ("Stream URL: " +:+ url +:+ "/video_feed") ;;
        proc_print (str_mul "=" 50 +:+ LF) ;;
        ThreadedHTTPServer SERVER_HOST HTTP_PORT ;;
        emit EvServeForever ;;
        if interrupted then
          emit EvServerClose ;;
          emit (EvCapRelease cap) ;;
          proc_print "Server and Webcam closed." ;;
          mret (Done Interrupted)
        else mret StillRunning
    end.

End Process.

End Stream.

(** ** Snapshot-notify mode: [webcam_server.py] *)
Module Snapshot.

Definition HTTP_PORT : N := 8000.
Definition WS_PORT : N := 8765.
Definition LATEST_IMAGE_FILENAME : string := "captured_latest.jpg".
Definition SERVER_HOST : string := "localhost".

(** *** The process state *)
Record World := mkWorld {
  connected_clients : gset Client;  (* the module-level set *)
  waiting : gset Client;     (* handlers parked in [wait_closed()] *)
  next_ws : Client;          (* identity of the next connection object *)
  files : gmap string bytes; (* the working directory *)
  clock : nat;               (* readings of [datetime.now()] taken so far *)
  trace : list Event         (* what the process has done, in order *)
}.

(** the process at start: [connected_clients = set()] *)
Definition boot : World := mkWorld ∅ ∅ 0 ∅ 0 [].

Abbreviation IO := (M World).

Definition emit (ev : Event) : IO unit := fun w =>
  Ok tt (mkWorld (connected_clients w) (waiting w) (next_ws w) (files w)
                 (clock w) (trace w ++ [ev])).

Definition print (line : string) : IO unit := emit (EvPrint line).

(** [connected_clients.add(c)] *)
Definition set_add (c : Client) : IO unit := fun w =>
  Ok tt (mkWorld ({[c]} ∪ connected_clients w) (waiting w) (next_ws w)
                 (files w) (clock w) (trace w ++ [EvSetAdd c])).

(** [connected_clients.remove(c)], which raises on an absent element *)
Definition set_remove (c : Client) : IO unit := fun w =>
  if decide (c ∈ connected_clients w) then
    Ok tt (mkWorld (connected_clients w ∖ {[c]}) (waiting w) (next_ws w)
                   (files w) (clock w) (trace w ++ [EvSetRemove c]))
  else Raise KeyError w.

(** [len(connected_clients)] *)
Definition len_connected_clients : IO nat := fun w =>
  Ok (size (connected_clients w)) w.

(** *** The connection handler, a coroutine in two stretches *)

(** the library makes a connection object and calls the handler on it *)
Definition new_websocket : IO Client := fun w =>
  Ok (next_ws w)
     (mkWorld (connected_clients w) (waiting w) (S (next_ws w)) (files w)
              (clock w) (trace w)).

(** [await websocket.wait_closed()]: the coroutine is parked *)
Definition wait_closed (c : Client) : IO unit := fun w =>
  Ok tt (mkWorld (connected_clients w) ({[c]} ∪ waiting w) (next_ws w)
                 (files w) (clock w) (trace w)).

(** the close of connection [c] wakes the coroutine parked on it, if one
    is; the answer tells whether *)
Definition wake (c : Client) : IO bool := fun w =>
  if decide (c ∈ waiting w) then
    Ok true (mkWorld (connected_clients w) (waiting w ∖ {[c]}) (next_ws w)
                     (files w) (clock w) (trace w))
  else Ok false w.

(** [handle_client], lines 23-26: up to the await *)
Definition handle_client_enter (websocket : Client) : IO unit :=
  set_add websocket ;;
  n ← len_connected_clients;
  print ("Client connected. Total clients: " +:+ py_str n) ;;
  wait_closed websocket.

(** [handle_client], lines 27-29: the [finally] block *)
Definition handle_client_finally (websocket : Client) : IO unit :=
  set_remove websocket ;;
  n ← len_connected_clients;
  print ("Client disconnected. Total clients: " +:+ py_str n).

(** what reaches the handlers from the network *)
Inductive ConnEvent : Type :=
| Connect                    (* a subscriber opens a connection *)
| CloseSignal (c : Client).  (* connection [c] is reported closed *)

Definition deliver (ev : ConnEvent) : IO unit :=
  match ev with
  | Connect => websocket ← new_websocket; handle_client_enter websocket
  | CloseSignal c =>
      parked ← wake c;
      if (parked : bool) then handle_client_finally c else mret tt
  end.

(** a task of the event loop: an exception ends the task, not the loop *)
Definition run_task (task : IO unit) : IO unit :=
  r ← try_ task;
  match r with
  | inl _ => mret tt
  | inr e => emit (EvTaskFailed e)
  end.

(** the handlers' turns while the capture loop is suspended *)
Fixpoint event_loop_turn (evs : list ConnEvent) : IO unit :=
  match evs with
  | [] => mret tt
  | ev :: rest => run_task (deliver ev) ;; event_loop_turn rest
  end.

(** *** The broadcast *)

(** [asyncio.gather] over the awaitables [aws] with
    [return_exceptions=True] *)
Fixpoint gather_return_exceptions {A} (aws : list (IO A))
  : IO (list (A + exn)) :=
  match aws with
  | [] => mret []
  | aw :: rest =>
      r ← try_ aw;
      rs ← gather_return_exceptions rest;
      mret (r :: rs)
  end.

(** the dict literal of lines 34-38 *)
Definition notification (timestamp : string) : dict :=
  [("type", "new_image_ready");
   ("filename", LATEST_IMAGE_FILENAME);
   ("timestamp", timestamp)].

Section Server.

(** [datetime.now().isoformat()] at the n-th reading of the clock *)
Variable isoformat_at : nat -> string.

Definition datetime_now_isoformat : IO string := fun w =>
  Ok (isoformat_at (clock w))
     (mkWorld (connected_clients w) (waiting w) (next_ws w) (files w)
              (S (clock w)) (trace w)).

(** [client.send(message)]; [broken] are the connections on which a send
    raises *)
Definition client_send (broken : gset Client) (client : Client)
    (message : string) : IO unit := fun w =>
  if decide (client ∈ broken) then
    Raise ConnectionClosed (final (emit (EvSend client message false) w))
  else emit (EvSend client message true) w.

(** [send_notification_to_clients] *)
Definition send_notification_to_clients (broken : gset Client) : IO unit :=
  fun w =>
  if decide (connected_clients w ≠ ∅) then
    (timestamp ← datetime_now_isoformat;
     let message := json_dumps (notification timestamp) in
     gather_return_exceptions
       (map (fun client => client_send broken client message)
            (elements (connected_clients w))) ;;
     mret tt) w
  else Ok tt w.

(** [start_http_server], the body of the HTTP thread *)
Definition start_http_server : IO unit :=
  emit (EvHttpBind EmptyString HTTP_PORT) ;;
  print ("HTTP Server serving files on port " +:+ py_str (N.to_nat HTTP_PORT)) ;;
  emit EvServeForever.

(** a raw image as [cap.read()] returns it, and the bytes [cv2.imwrite]
    stores for it *)
Variable Frame : Type.
Variable jpeg : Frame -> bytes.

(** [cv2.imwrite(filename, frame)]: the value returned tells whether the
    file was written; [written] is what the file system lets happen *)
Definition imwrite (filename : string) (frame : Frame) (written : bool)
  : IO bool := fun w =>
  Ok written
     (mkWorld (connected_clients w) (waiting w) (next_ws w)
              (if written then <[filename := jpeg frame]> (files w)
               else files w)
              (clock w)
              (trace w ++ [EvImwrite filename (jpeg frame)])).

(** whether [cv2.VideoCapture(i)] gets the device *)
Variable device_opens : nat -> bool.

Definition VideoCapture (i : nat) : IO Capture :=
  emit (EvVideoCapture i) ;; mret (mkCapture i (device_opens i)).

(** what one pass of the capture loop meets *)
Record Tick := mkTick {
  read : option Frame;       (* [cap.read()], [None] for [ret == False] *)
  key : Z;                   (* [cv2.waitKey(1)] *)
  written : bool;            (* whether a [cv2.imwrite] gets its file
                                written *)
  broken : gset Client;      (* connections on which a send raises *)
  arrivals : list ConnEvent  (* what the handlers get during the sleep *)
}.

Definition window_name : string := "Webcam - Press S to capture, Q to quit".

(** lines 110-118: the capture branch; the value of [cv2.imwrite] is
    dropped *)
Definition capture_and_notify (frame : Frame) (written : bool)
    (broken : gset Client) : IO unit :=
  imwrite LATEST_IMAGE_FILENAME frame written ;;
  send_notification_to_clients broken ;;
  print ("✓ Picture captured and saved as " +:+ LATEST_IMAGE_FILENAME) ;;
  n ← len_connected_clients;
  print ("  Sent notification to " +:+ py_str n +:+ " client(s)").

(** lines 93-129: one pass of the loop body; [inl] is [break].  The
    handlers get their turn where the loop awaits; the recipients of a
    broadcast are fixed before its await, so the handlers' turn is placed
    at the sleep that ends the pass. *)
Definition loop_body (cap : Capture) (tk : Tick) (fullscreen : bool)
  : IO (exit + bool) :=
  emit (EvCapRead cap) ;;
  match read tk with
  | None =>
      print "Error: Failed to capture frame" ;;
      mret (inl CaptureError)
  | Some frame =>
      emit (EvImshow window_name) ;;
      emit EvWaitKey ;;
      let key := Z.land (key tk) 255 in
      if ((key =? 113) || (key =? 27))%Z then mret (inl Quit)
      else
        fullscreen ←
          (if (key =? 115)%Z then
             capture_and_notify frame (written tk) (broken tk) ;;
             mret fullscreen
           else if (key =? 102)%Z then
             emit (EvSetFullscreen (negb fullscreen)) ;;
             mret (negb fullscreen)
           else mret fullscreen);
        emit EvSleep ;;
        event_loop_turn (arrivals tk) ;;
        mret (inr fullscreen)
  end.

(** the [while True] loop of [webcam_loop] *)
Fixpoint capture_loop (cap : Capture) (ticks : list Tick) (fullscreen : bool)
  : IO status :=
  match ticks with
  | [] => mret StillRunning
  | tk :: rest =>
      r ← loop_body cap tk fullscreen;
      match r with
      | inl why => mret (Done why)
      | inr fullscreen' => capture_loop cap rest fullscreen'
      end
  end.

Definition banner : list string :=
  [LF +:+ str_mul "=" 50;
   "Webcam Server Started!";
   "WS Server: ws://" +:+ SERVER_HOST +:+ ":" +:+ py_str (N.to_nat WS_PORT);
   "HTTP Server: http://" +:+ SERVER_HOST +:+ ":"
     +:+ py_str (N.to_nat HTTP_PORT);
   str_mul "=" 50;
   "Controls:";
   "  Press 'S' - Capture, save, and notify client to load image";
   "  Press 'F' - Toggle fullscreen";
   "  Press 'Q' - Quit";
   str_mul "=" 50 +:+ LF].

Fixpoint print_all (lines : list string) : IO unit :=
  match lines with
  | [] => mret tt
  | l :: rest => print l ;; print_all rest
  end.

(** [webcam_loop], lines 72-133: what follows a successful open *)
Definition capture_session (cap : Capture) (ticks : list Tick) : IO status :=
  emit (EvCapSet cap "CAP_PROP_FRAME_WIDTH" 1280) ;;
  emit (EvCapSet cap "CAP_PROP_FRAME_HEIGHT" 720) ;;
  emit (EvNamedWindow window_name) ;;
  print_all banner ;;
  st ← capture_loop cap ticks false;
  match st with
  | StillRunning => mret StillRunning
  | Done why =>
      emit (EvCapRelease cap) ;;
      emit EvDestroyAllWindows ;;
      print "Webcam closed" ;;
      mret (Done why)
  end.

(** [webcam_loop] *)
Definition webcam_loop (ticks : list Tick) : IO status :=
  cap ← VideoCapture 0;
  cap ← (if negb (isOpened cap) then
           print "Camera 0 not available, trying camera 1..." ;;
           VideoCapture 1
         else mret cap);
  if negb (isOpened cap) then
    print "Error: Could not open webcam" ;;
    mret (Done DeviceUnavailable)
  else capture_session cap ticks.

(** [main]; the HTTP thread runs [start_http_server] on its own.  The
    pub/sub server is taken to get its address, and what becomes of the
    connections still open when it shuts down is not followed. *)
Definition main (ticks : list Tick) : IO status :=
  emit (EvThreadStart "start_http_server") ;;
  emit (EvWsListen SERVER_HOST WS_PORT) ;;
  print ("WebSocket server started on ws://" +:+ SERVER_HOST +:+ ":"
         +:+ py_str (N.to_nat WS_PORT)) ;;
  st ← webcam_loop ticks;
  match st with
  | StillRunning => mret StillRunning
  | Done why => emit EvWsShutdown ;; mret (Done why)
  end.

End Server.

Arguments Tick Frame : clear implicits.
Arguments mkTick {Frame} read key written broken arrivals.
Arguments read {Frame} t.
Arguments key {Frame} t.
Arguments written {Frame} t.
Arguments broken {Frame} t.
Arguments arrivals {Frame} t.
Arguments imwrite {Frame} jpeg filename frame written.
Arguments capture_and_notify isoformat_at {Frame} jpeg frame written broken.
Arguments loop_body isoformat_at {Frame} jpeg cap tk fullscreen.
Arguments capture_loop isoformat_at {Frame} jpeg cap ticks fullscreen.
Arguments capture_session isoformat_at {Frame} jpeg cap ticks.
Arguments webcam_loop isoformat_at {Frame} jpeg device_opens ticks.
Arguments main isoformat_at {Frame} jpeg device_opens ticks.

(** *** What the specification says a subscriber reads *)

(** the sends of one broadcast of [message] to the clients [cs]: one per
    client, delivered unless its connection is among the [broken] ones *)
Definition broadcast_events (broken : gset Client) (message : string)
    (cs : list Client) : list Event :=
  map (fun c => EvSend c message (if decide (c ∈ broken) then false else true))
      cs.



(** *** Scripts of connection events *)

(** each close signal names a connection that has been opened before it
    and has not been closed before it; [opened] counts the connections
    made so far, [gone] lists the ones closed so far *)
Fixpoint matched_from (opened : nat) (gone : list Client)
    (evs : list ConnEvent) : bool :=
  match evs with
  | [] => true
  | Connect :: rest => matched_from (S opened) gone rest
  | CloseSignal c :: rest =>
      (c <? opened)%nat && negb (existsb (Nat.eqb c) gone)
      && matched_from opened (c :: gone) rest
  end.

Definition matched (evs : list ConnEvent) : bool := matched_from 0 [] evs.

Definition connects (evs : list ConnEvent) : nat :=
  length (List.filter (fun ev => match ev with Connect => true | _ => false end)
                      evs).

(** the connections a script reports closed, in order *)
Definition closes (evs : list ConnEvent) : list Client :=
  omap (fun ev => match ev with CloseSignal c => Some c | Connect => None end)
       evs.

Definition disconnects (evs : list ConnEvent) : nat := length (closes evs).

(** [opened] connections have been made, the ones in [gone] have been
    closed, and the client set holds the others *)
Definition tracks (opened : nat) (gone : list Client) (w : World) : Prop :=
  next_ws w = opened
  /\ connected_clients w = waiting w
  /\ (forall c, c ∈ waiting w <-> c < opened /\ ~ In c gone)
  /\ size (waiting w) + length gone = opened
  /\ (forall c, In c gone -> c < opened)
  /\ task_failures (trace w) = 0.

(** the client set holds exactly the connections whose handler is parked;
    a connection that has been made and is no longer parked has been
    removed once, any other never; no handler has failed *)
Definition healthy (w : World) : Prop :=
  connected_clients w = waiting w
  /\ (forall c, c ∈ waiting w -> c < next_ws w)
  /\ (forall c, removals c (trace w)
               = if decide (c < next_ws w /\ c ∉ waiting w) then 1 else 0)
  /\ task_failures (trace w) = 0.

End Snapshot.

(** ** Sample inputs *)
Module Sample.

(** frames stand for their size; a frame of size 0 does not encode *)
Definition imencode (frame : nat) : call (option bytes) :=
  match frame with
  | 0 => Returns None
  | S k => Returns (Some (repeat x41 k))
  end.

(** an encoder that raises on frames of size 13 *)
Definition imencode_raising (frame : nat) : call (option bytes) :=
  if Nat.eqb frame 13 then Raises CvError else imencode frame.

Definition jpeg (frame : nat) : bytes := repeat x41 frame.

Definition isoformat_at (n : nat) : string :=
  "2024-01-01T12:00:0" +:+ py_str n.

Definition static_do_GET (path : string) : M Stream.Handler status :=
  mret (Done Quit).

Definition no_camera (i : nat) : bool := false.


End Sample.

(** ** Further observations on traces *)
Module Observe.


Definition http_binds (t : list Event) : nat :=
  length (List.filter (fun ev => match ev with
                                 | EvHttpBind _ _ => true
                                 | _ => false
                                 end) t).

Definition server_closes (t : list Event) : nat :=
  length (List.filter (fun ev => match ev with
                                 | EvServerClose => true
                                 | _ => false
                                 end) t).


(** how [run_server] comes to an end, by what the outside world decides *)
Definition run_server_outcome (device_opens : nat -> bool)
    (chdir_error : option exn) (port_free interrupted : bool)
  : call status :=
  if negb (device_opens 0 || device_opens 1) then
    Returns (Done DeviceUnavailable)
  else
    match chdir_error with
    | Some FileNotFoundError => Returns (Done StaticRootMissing)
    | Some e => Raises e
    | None =>
        if negb port_free then Raises OSError
        else if interrupted then Returns (Done Interrupted)
        else Returns StillRunning
    end.

(** the clients a stretch of events sends to, in order *)
Definition recipients (t : list Event) : list Client :=
  omap (fun ev => match ev with EvSend c _ _ => Some c | _ => None end) t.

(** the states the window is put in, in order *)
Definition fullscreen_events (t : list Event) : list bool :=
  omap (fun ev => match ev with EvSetFullscreen b => Some b | _ => None end)
       t.

(** [b], [negb b], [b], ... : [n] values *)
Fixpoint alternating (b : bool) (n : nat) : list bool :=
  match n with
  | O => []
  | S k => b :: alternating (negb b) k
  end.



(** [cv2.waitKey(1) & 0xFF] in a pass of the capture loop *)
Definition low_byte {Frame} (tk : Snapshot.Tick Frame) : Z :=
  Z.land (Snapshot.key tk) 255.


(** whether a pass meets the toggle key *)
Definition is_toggle {Frame} (tk : Snapshot.Tick Frame) : bool :=
  (low_byte tk =? 102)%Z.

(** whether the loop goes on after a pass: the read succeeds and the key
    is not a quit key *)
Definition goes_on {Frame} (tk : Snapshot.Tick Frame) : bool :=
  match Snapshot.read tk with
  | None => false
  | Some _ => negb ((low_byte tk =? 113) || (low_byte tk =? 27))%Z
  end.

(** the passes after which the loop goes on: those before the first
    failed read or quit key *)
Fixpoint passes_made {Frame} (ticks : list (Snapshot.Tick Frame))
  : list (Snapshot.Tick Frame) :=
  match ticks with
  | [] => []
  | tk :: rest => if goes_on tk then tk :: passes_made rest else []
  end.

(** the window states that the toggle passes among [passes] ask for,
    starting from the flag [fullscreen] *)
Fixpoint toggled {Frame} (fullscreen : bool)
    (passes : list (Snapshot.Tick Frame)) : list bool :=
  match passes with
  | [] => []
  | tk :: rest =>
      if is_toggle tk then negb fullscreen :: toggled (negb fullscreen) rest
      else toggled fullscreen rest
  end.


End Observe.

(** * Properties *)

(** ** Helper facts on strings and bytes *)

Lemma encode_latin1_app (s1 s2 : string) :
  encode_latin1 (s1 +:+ s2) = encode_latin1 s1 ++ encode_latin1 s2.
Proof.
  unfold encode_latin1, list_byte_of_string.
  induction s1 as [|c s1 IH]; simpl; [reflexivity|].
  now rewrite IH.
Qed.

(** ** Continuous-stream mode *)
Module StreamFacts.
Import Stream.


(** *** The calls of [http.server] on a handler *)

Section Calls.

Variable version : string.
Variable close : bool.

Lemma wfile_write_ok (b : bytes) hb wf k al so sl :
  wfile_write b (mkHandler version close hb wf (S k) al so sl)
  = Ok tt (mkHandler version close hb (wf ++ b) k al so sl).
Proof. reflexivity. Qed.

Lemma log_request_ok (code : nat) hb wf pw al so sl :
  log_request code (mkHandler version close hb wf pw al so sl)
  = Ok tt (mkHandler version close hb wf pw (al ++ [code]) so sl).
Proof. reflexivity. Qed.

Lemma sleep_frame_delay_ok hb wf pw al so sl :
  sleep_frame_delay (mkHandler version close hb wf pw al so sl)
  = Ok tt (mkHandler version close hb wf pw al so (S sl)).
Proof. reflexivity. Qed.

Lemma send_response_only_versioned hb wf pw al so sl :
  has_version version = true ->
  send_response_only 200 (mkHandler version close hb wf pw al so sl)
  = Ok tt (mkHandler version close
             (Some (match hb with Some b => b | None => [] end
                    ++ [encode_latin1 ("HTTP/1.0 200 OK" +:+ CRLF)]))
             wf pw al so sl).
Proof.
  intros Hv. unfold send_response_only. cbn [request_version].
  rewrite Hv. reflexivity.
Qed.

Lemma send_response_only_bare (code : nat) (h : Handler) :
  has_version (request_version h) = false ->
  send_response_only code h = Ok tt h.
Proof. intros Hv. unfold send_response_only. now rewrite Hv. Qed.

Lemma send_header_versioned (keyword value : string) hb wf pw al so sl :
  has_version version = true ->
  String.eqb (str_lower keyword) "connection" = false ->
  send_header keyword value (mkHandler version close hb wf pw al so sl)
  = Ok tt (mkHandler version close
             (Some (match hb with Some b => b | None => [] end
                    ++ [encode_latin1 (keyword +:+ ": " +:+ value +:+ CRLF)]))
             wf pw al so sl).
Proof.
  intros Hv Hk. unfold send_header, mbind, M_bind. cbn [request_version].
  rewrite Hv, Hk. reflexivity.
Qed.

Lemma send_header_bare (keyword value : string) (h : Handler) :
  has_version (request_version h) = false ->
  String.eqb (str_lower keyword) "connection" = false ->
  send_header keyword value h = Ok tt h.
Proof.
  intros Hv Hk. unfold send_header, mbind, M_bind.
  rewrite Hv, Hk. reflexivity.
Qed.

Lemma end_headers_versioned (b : list bytes) wf k al so sl :
  has_version version = true ->
  end_headers (mkHandler version close (Some b) wf (S k) al so sl)
  = Ok tt (mkHandler version close (Some [])
             (wf ++ concat (b ++ [encode_latin1 CRLF])) k al so sl).
Proof.
  intros Hv. unfold end_headers. cbn [request_version].
  rewrite Hv. reflexivity.
Qed.

Lemma end_headers_gone (b : list bytes) wf al so sl :
  has_version version = true ->
  end_headers (mkHandler version close (Some b) wf 0 al so sl)
  = Raise BrokenPipeError
      (mkHandler version close (Some (b ++ [encode_latin1 CRLF])) wf 0
                 al so sl).
Proof.
  intros Hv. unfold end_headers. cbn [request_version].
  rewrite Hv. reflexivity.
Qed.

Lemma end_headers_bare (h : Handler) :
  has_version (request_version h) = false ->
  end_headers h = Ok tt h.
Proof. intros Hv. unfold end_headers. now rewrite Hv. Qed.

End Calls.

Ltac chain := cbv beta delta [mbind M_bind mret M_ret].
Ltac step L := rewrite L by (assumption || reflexivity); cbv beta iota.

Section Feed.

Context {Frame : Type}.
Variable imencode : Frame -> call (option bytes).
Variables version_string date_time_string : string.
Variable static_do_GET : string -> M Handler status.
Variable version : string.
Variable close : bool.

(** one part costs four socket writes, three for a request without a
    protocol version, and leaves the header buffer as it was *)
Lemma send_part_ok (buffer wf : bytes) (k : nat) al so sl :
  send_part buffer
    (mkHandler version close (idle_buffer version) wf
               (part_writes version + k) al so sl)
  = Ok tt (mkHandler version close (idle_buffer version)
             (wf ++ wire_part version buffer) k al so (S sl)).
Proof.
  unfold idle_buffer, part_writes, wire_part, send_part.
  destruct (has_version version) eqn:Hv; chain.
  - change (4 + k) with (S (S (S (S k)))).
    step wfile_write_ok.
    step send_header_versioned. step send_header_versioned.
    step end_headers_versioned.
    step wfile_write_ok. step wfile_write_ok. step sleep_frame_delay_ok.
    do 2 f_equal. unfold mjpeg_part. cbn [concat app].
    rewrite !encode_latin1_app, !app_nil_r, <- !app_assoc.
    reflexivity.
  - change (3 + k) with (S (S (S k))).
    step wfile_write_ok.
    step send_header_bare. step send_header_bare. step end_headers_bare.
    step wfile_write_ok. step wfile_write_ok. step sleep_frame_delay_ok.
    do 2 f_equal. unfold bare_part. now rewrite <- !app_assoc.
Qed.

Lemma omap_cons_returns (f : Frame) (fs : list Frame) (r : option bytes) :
  imencode f = Returns r ->
  omap (encoding imencode) (f :: fs)
  = match r with
    | Some buffer => buffer :: omap (encoding imencode) fs
    | None => omap (encoding imencode) fs
    end.
Proof.
  intros Hf. cbn [omap list_omap]. unfold encoding at 1. rewrite Hf.
  now destruct r.
Qed.

Lemma omap_cons_raises (f : Frame) (fs : list Frame) (e : exn) :
  imencode f = Raises e ->
  omap (encoding imencode) (f :: fs) = omap (encoding imencode) fs.
Proof.
  intros Hf. cbn [omap list_omap]. unfold encoding at 1. now rewrite Hf.
Qed.

(** the frames that come before the rest of the reads are turned into
    parts, one for each that encodes, and the loop goes on with the
    rest *)
Lemma stream_loop_app (fs : list Frame) (tail : list (option Frame)) :
  Forall (encode_returns imencode) fs ->
  forall wf k al so sl,
    stream_loop imencode (map Some fs ++ tail)
      (mkHandler version close (idle_buffer version) wf
         (part_writes version * length (omap (encoding imencode) fs) + k)
         al so sl)
    = stream_loop imencode tail
        (mkHandler version close (idle_buffer version)
           (wf ++ concat (map (wire_part version)
                              (omap (encoding imencode) fs)))
           k al so (sl + length (omap (encoding imencode) fs))).
Proof.
  induction 1 as [|f fs [r Hf] _ IH]; intros wf k al so sl.
  - cbn. now rewrite app_nil_r, Nat.mul_0_r, Nat.add_0_r.
  - cbn [map app stream_loop]. rewrite Hf.
    rewrite (omap_cons_returns f fs r Hf).
    destruct r as [buffer|]; [|apply IH].
    cbn [length map concat].
    replace (part_writes version
             * S (length (omap (encoding imencode) fs)) + k)
      with (part_writes version
            + (part_writes version * length (omap (encoding imencode) fs)
               + k)) by lia.
    chain. rewrite send_part_ok. cbv beta iota.
    rewrite IH. rewrite <- app_assoc.
    now replace (S sl + length (omap (encoding imencode) fs))
      with (sl + S (length (omap (encoding imencode) fs))) by lia.
Qed.

(** once the response head is out, the rest of [stream_video_feed] is the
    loop inside its [try] *)
Lemma feed_head_ok (reads : list (option Frame)) (k : nat) :
  stream_video_feed imencode version_string date_time_string reads
    (accepted version close (head_writes version + k))
  = (r ← try_ (stream_loop imencode reads);
     match r with
     | inl st => mret st
     | inr _ => mret (Done Swallowed)
     end)
      (mkHandler version close (idle_buffer version)
         (wire_head version version_string date_time_string)
         k [200] [] 0).
Proof.
  unfold stream_video_feed, send_response, accepted, head_writes,
    idle_buffer, wire_head.
  destruct (has_version version) eqn:Hv; chain.
  - step log_request_ok. step send_response_only_versioned.
    do 4 step send_header_versioned.
    cbn [Nat.add]. step end_headers_versioned.
    match goal with
    | |- context [try_ _ (mkHandler _ _ _ ?wf _ _ _ _)] =>
        replace wf
          with (http_head 200 "OK"
                  (feed_headers version_string date_time_string));
        [reflexivity|]
    end.
    unfold http_head, feed_headers.
    cbn [concat app map fst snd].
    rewrite !encode_latin1_app, !app_nil_r, <- !app_assoc.
    reflexivity.
  - step log_request_ok. step send_response_only_bare.
    do 4 step send_header_bare. step end_headers_bare.
    reflexivity.
Qed.

(** as long as the peer takes the writes and no encode raises, the loop
    stays in the loop after the frames delivered so far *)
Lemma stream_video_feed_ok (fs : list Frame) (k : nat) :
  Forall (encode_returns imencode) fs ->
  stream_video_feed imencode version_string date_time_string (map Some fs)
    (accepted version close
       (head_writes version
        + (part_writes version * length (omap (encoding imencode) fs) + k)))
  = Ok StillRunning
       (mkHandler version close (idle_buffer version)
          (wire_head version version_string date_time_string
           ++ concat (map (wire_part version) (omap (encoding imencode) fs)))
          k [200] [] (length (omap (encoding imencode) fs))).
Proof.
  intros Hfs. rewrite feed_head_ok. chain. unfold try_.
  rewrite <- (app_nil_r (map Some fs)).
  rewrite (stream_loop_app fs [] Hfs). reflexivity.
Qed.

(** an encode that raises after such frames ends the stream inside the
    [try] *)
Lemma stream_video_feed_swallows (fs : list Frame) (f : Frame) (e : exn)
    (rest : list (option Frame)) (k : nat) :
  Forall (encode_returns imencode) fs ->
  imencode f = Raises e ->
  stream_video_feed imencode version_string date_time_string
    (map Some fs ++ Some f :: rest)
    (accepted version close
       (head_writes version
        + (part_writes version * length (omap (encoding imencode) fs) + k)))
  = Ok (Done Swallowed)
       (mkHandler version close (idle_buffer version)
          (wire_head version version_string date_time_string
           ++ concat (map (wire_part version) (omap (encoding imencode) fs)))
          k [200] [] (length (omap (encoding imencode) fs))).
Proof.
  intros Hfs Hf. rewrite feed_head_ok. chain. unfold try_.
  rewrite (stream_loop_app fs _ Hfs). cbn [stream_loop].
  rewrite Hf. reflexivity.
Qed.

Lemma encode_failures_length (fs : list Frame) :
  Forall (encode_returns imencode) fs ->
  length (omap (encoding imencode) fs)
  = length fs - encode_failures imencode fs
  /\ encode_failures imencode fs <= length fs.
Proof.
  unfold encode_failures.
  induction 1 as [|f fs [r Hf] _ [IH1 IH2]]; [cbn; split; lia|].
  rewrite (omap_cons_returns f fs r Hf). cbn [List.filter]. rewrite Hf.
  destruct r; cbn [length]; split; lia.
Qed.




(** C2, as the claim states it, fails for an encode that raises: of three
    good reads the second has an encode that raises, and the stream ends
    there, after one part, although the peer would have taken more. *)
Lemma raising_encode_ends_stream :
  exists h,
    do_GET Sample.imencode_raising "SimpleHTTP/0.6 Python/3.11"
      "Mon, 01 Jan 2024 12:00:00 GMT" Sample.static_do_GET "/video_feed"
      (map Some [2; 13; 1]) (accepted "HTTP/1.1" false 20)
    = Ok (Done Swallowed) h
    /\ wfile h
       = http_head 200 "OK"
           (feed_headers "SimpleHTTP/0.6 Python/3.11"
                         "Mon, 01 Jan 2024 12:00:00 GMT")
         ++ mjpeg_part [x41]
    /\ peer_writes h = 15.
Proof.
  eexists. split; [vm_compute; reflexivity|].
  split; vm_compute; reflexivity.
Qed.

(** C2, amended.  Among N successful reads none of whose encodes raises,
    the K frames whose encode reports failure are skipped: the loop goes
    on to the next read, the peer gets exactly N - K parts (those of the
    frames that encode, in order), the only status ever sent is 200,
    nothing is reported as an error and the handler is still streaming
    afterwards.  An encode that raises after them is caught by the
    [except] around the loop: the stream ends there, with the same parts
    sent and still no error response. *)
Theorem encode_failures_are_skipped (fs : list Frame) (writes : nat) :
  Forall (encode_returns imencode) fs ->
  part_writes version * (length fs - encode_failures imencode fs)
  + head_writes version <= writes ->
  (exists h,
     do_GET imencode version_string date_time_string static_do_GET
       "/video_feed" (map Some fs) (accepted version close writes)
     = Ok StillRunning h
     /\ wfile h
        = wire_head version version_string date_time_string
          ++ concat (map (wire_part version) (omap (encoding imencode) fs))
     /\ length (omap (encoding imencode) fs)
        = length fs - encode_failures imencode fs
     /\ encode_failures imencode fs <= length fs
     /\ access_log h = [200]
     /\ stdout h = [])
  /\ (forall (f : Frame) (e : exn) (rest : list (option Frame)),
        imencode f = Raises e ->
        exists h,
          do_GET imencode version_string date_time_string static_do_GET
            "/video_feed" (map Some fs ++ Some f :: rest)
            (accepted version close writes)
          = Ok (Done Swallowed) h
          /\ wfile h
             = wire_head version version_string date_time_string
               ++ concat (map (wire_part version)
                              (omap (encoding imencode) fs))
          /\ access_log h = [200]
          /\ stdout h = []).
Proof.
  intros Hfs Hw.
  destruct (encode_failures_length fs Hfs) as [Hlen Hle].
  replace writes
    with (head_writes version
          + (part_writes version * length (omap (encoding imencode) fs)
             + (writes
                - part_writes version * length (omap (encoding imencode) fs)
                - head_writes version)))
    by (rewrite Hlen; lia).
  unfold do_GET. cbn [String.eqb Ascii.eqb Bool.eqb].
  split.
  - rewrite (stream_video_feed_ok fs _ Hfs).
    eexists. split; [reflexivity|].
    cbn [wfile access_log stdout]. auto.
  - intros f e rest Hf.
    rewrite (stream_video_feed_swallows fs f e rest _ Hfs Hf).
    eexists. split; [reflexivity|].
    cbn [wfile access_log stdout]. auto.
Qed.

End Feed.

(** *** Startup *)

(** [run_server] tries index 0, then index 1 only if 0 did not open; it
    works on the capture that opened; it binds its socket only after a
    camera has opened; and it returns unless the change of directory
    fails for another reason than a missing directory or the address is
    taken *)
Lemma run_server_opens (device_opens : nat -> bool)
    (chdir_error : option exn) (getcwd : string)
    (port_free interrupted : bool) :
  exists r evs,
    run_server device_opens chdir_error getcwd port_free interrupted [] = r
    /\ final r = evs
    /\ (chdir_error = None \/ chdir_error = Some FileNotFoundError ->
        port_free = true -> exists st, r = Ok st evs)
    /\ length (open_attempts evs) <= 2
    /\ listens_only_once_open device_opens false evs = true
    /\ if device_opens 0 then
         open_attempts evs = [0]
         /\ Forall (eq (mkCapture 0 true)) (captures_used evs)
       else if device_opens 1 then
         open_attempts evs = [0; 1]
         /\ Forall (eq (mkCapture 1 true)) (captures_used evs)
       else
         r = Ok (Done DeviceUnavailable) evs
         /\ evs = [EvVideoCapture 0; EvVideoCapture 1;
                   EvPrint "Error: Could not open webcam"].
Proof.
  unfold run_server, VideoCapture, chdir, ThreadedHTTPServer, proc_print,
    emit, try_.
  unfold mbind, M_bind, mret, M_ret. cbn [app isOpened].
  destruct (device_opens 0) eqn:E0; cbn [negb app isOpened];
    [|destruct (device_opens 1) eqn:E1; cbn [negb app isOpened]];
    try (destruct chdir_error as [[]|], port_free, interrupted; cbn [app]);
    eexists _, _; (split; [reflexivity|]); (split; [reflexivity|]);
    (split; [intros [Hc|Hc] Hp; try discriminate Hc; try discriminate Hp;
             eexists; reflexivity|]);
    cbn; rewrite ?E0, ?E1; cbn; repeat constructor.
Qed.

End StreamFacts.

(** ** Snapshot-notify mode *)
Module SnapshotFacts.
Import Snapshot.



(** *** The connection handlers *)

Lemma deliver_connect (w : World) :
  deliver Connect w
  = Ok tt (mkWorld ({[next_ws w]} ∪ connected_clients w)
                   ({[next_ws w]} ∪ waiting w) (S (next_ws w)) (files w)
                   (clock w)
                   (trace w ++
                    [EvSetAdd (next_ws w);
                     EvPrint ("Client connected. Total clients: " +:+
                              py_str (size ({[next_ws w]}
                                            ∪ connected_clients w)))])).
Proof.
  unfold deliver, new_websocket, handle_client_enter, set_add,
    len_connected_clients, print, emit, wait_closed, mbind, M_bind.
  cbn. now rewrite <- app_assoc.
Qed.

Lemma deliver_close_parked (c : Client) (w : World) :
  c ∈ waiting w -> c ∈ connected_clients w ->
  deliver (CloseSignal c) w
  = Ok tt (mkWorld (connected_clients w ∖ {[c]}) (waiting w ∖ {[c]})
                   (next_ws w) (files w) (clock w)
                   (trace w ++
                    [EvSetRemove c;
                     EvPrint ("Client disconnected. Total clients: " +:+
                              py_str (size (connected_clients w ∖ {[c]})))])).
Proof.
  intros Hw Hc.
  unfold deliver, wake, handle_client_finally, set_remove,
    len_connected_clients, print, emit, mbind, M_bind.
  destruct (decide (c ∈ waiting w)); [|contradiction].
  cbn. destruct (decide (c ∈ connected_clients w)); [|contradiction].
  cbn. now rewrite <- app_assoc.
Qed.

Lemma deliver_close_stray (c : Client) (w : World) :
  c ∉ waiting w -> deliver (CloseSignal c) w = Ok tt w.
Proof.
  intros Hw. unfold deliver, wake, mbind, M_bind.
  destruct (decide (c ∈ waiting w)); [contradiction|reflexivity].
Qed.

Lemma run_task_ok (task : M World unit) (w w' : World) :
  task w = Ok tt w' -> run_task task w = Ok tt w'.
Proof. intros H. unfold run_task, try_, mbind, M_bind. now rewrite H. Qed.

(** whatever the state, a handler's turn ends normally for the event
    loop, leaves files and clock alone and adds only handler events *)
Lemma run_task_deliver_frame (ev : ConnEvent) (w : World) :
  exists w' t,
    run_task (deliver ev) w = Ok tt w'
    /\ files w' = files w /\ clock w' = clock w
    /\ trace w' = trace w ++ t
    /\ forallb handler_event t = true.
Proof.
  destruct ev as [|c].
  - eexists _, _. split; [apply run_task_ok, deliver_connect|].
    cbn. auto.
  - destruct (decide (c ∈ waiting w)) as [Hw|Hw].
    + destruct (decide (c ∈ connected_clients w)) as [Hc|Hc].
      * eexists _, _.
        split; [apply run_task_ok, deliver_close_parked; assumption|].
        cbn. auto.
      * unfold run_task, try_, deliver, wake, handle_client_finally,
          set_remove, emit, mbind, M_bind.
        destruct (decide (c ∈ waiting w)); [|contradiction].
        cbn. destruct (decide (c ∈ connected_clients w)); [contradiction|].
        cbn. eexists _, [_]. cbn. auto.
    + eexists _, []. split; [apply run_task_ok, deliver_close_stray, Hw|].
      rewrite app_nil_r. auto.
Qed.

Lemma event_loop_turn_frame (evs : list ConnEvent) : forall w,
  exists w' t,
    event_loop_turn evs w = Ok tt w'
    /\ files w' = files w /\ clock w' = clock w
    /\ trace w' = trace w ++ t
    /\ forallb handler_event t = true.
Proof.
  induction evs as [|ev evs IH]; intros w.
  - exists w, []. rewrite app_nil_r. auto.
  - cbn [event_loop_turn]. unfold mbind, M_bind.
    destruct (run_task_deliver_frame ev w) as (w1 & t1 & -> & Hf1 & Hc1 & Ht1 & Hh1).
    destruct (IH w1) as (w2 & t2 & -> & Hf2 & Hc2 & Ht2 & Hh2).
    exists w2, (t1 ++ t2). repeat split; try congruence.
    + now rewrite Ht2, Ht1, app_assoc.
    + rewrite forallb_app. now rewrite Hh1, Hh2.
Qed.


(** *** Connects and disconnects *)

Ltac split_ands := repeat match goal with |- _ /\ _ => split end.

Lemma removals_app (c : Client) (t1 t2 : list Event) :
  removals c (t1 ++ t2) = removals c t1 + removals c t2.
Proof. unfold removals. now rewrite List.filter_app, length_app. Qed.

Lemma task_failures_app (t1 t2 : list Event) :
  task_failures (t1 ++ t2) = task_failures t1 + task_failures t2.
Proof. unfold task_failures. now rewrite List.filter_app, length_app. Qed.

Lemma tracks_connect (opened : nat) (gone : list Client) (w : World) :
  tracks opened gone w ->
  exists w', deliver Connect w = Ok tt w' /\ tracks (S opened) gone w'.
Proof.
  intros (H1 & H2 & H3 & H4 & H5 & H6).
  eexists. split; [apply deliver_connect|].
  unfold tracks. cbn [connected_clients waiting next_ws trace].
  rewrite H1, H2.
  assert (opened ∉ waiting w) as Hfresh by (rewrite H3; lia).
  split_ands.
  - reflexivity.
  - reflexivity.
  - intros c. rewrite elem_of_union, elem_of_singleton, H3. split.
    + intros [->|[Hlt Hg]]; [|split; [lia|exact Hg]].
      split; [lia|]. intros Hin%H5. lia.
    + intros [Hlt Hg].
      destruct (decide (c = opened)); [left; assumption|].
      right. split; [lia|exact Hg].
  - rewrite size_union by (apply disjoint_singleton_l, Hfresh).
    rewrite size_singleton. lia.
  - intros c Hc%H5. lia.
  - rewrite task_failures_app, H6. reflexivity.
Qed.

Lemma tracks_close (opened : nat) (gone : list Client) (c : Client)
    (w : World) :
  tracks opened gone w -> c < opened -> ~ In c gone ->
  exists w',
    deliver (CloseSignal c) w = Ok tt w' /\ tracks opened (c :: gone) w'.
Proof.
  intros (H1 & H2 & H3 & H4 & H5 & H6) Hlt Hg.
  assert (c ∈ waiting w) as Hc by (rewrite H3; auto).
  eexists. split.
  { apply deliver_close_parked; [exact Hc|rewrite H2; exact Hc]. }
  unfold tracks. cbn [connected_clients waiting next_ws trace].
  rewrite H2.
  split_ands.
  - exact H1.
  - reflexivity.
  - intros x. rewrite elem_of_difference, not_elem_of_singleton, H3.
    cbn [In]. split.
    + intros [[Hx Hgx] Hne]. split; [exact Hx|].
      intros [->|Hin]; [now apply Hne|now apply Hgx].
    + intros [Hx Hgx]. split; [split; [exact Hx|]|]; intros Hin;
        apply Hgx; [right; exact Hin|left; now symmetry].
  - assert ({[c]} ⊆ waiting w) as Hsub by (apply singleton_subseteq_l, Hc).
    rewrite size_difference by exact Hsub.
    pose proof (subseteq_size _ _ Hsub) as Hle.
    rewrite size_singleton in *. cbn [length]. lia.
  - intros c' [<-|Hin]; [exact Hlt|apply H5, Hin].
  - rewrite task_failures_app, H6. reflexivity.
Qed.

Lemma matched_run (evs : list ConnEvent) : forall opened gone w,
  tracks opened gone w ->
  matched_from opened gone evs = true ->
  exists w',
    event_loop_turn evs w = Ok tt w'
    /\ tracks (opened + connects evs) (rev (closes evs) ++ gone) w'.
Proof.
  induction evs as [|ev evs IH]; intros opened gone w Hw Hm.
  - exists w. split; [reflexivity|].
    cbn. now rewrite Nat.add_0_r.
  - destruct ev as [|c]; cbn [matched_from] in Hm.
    + destruct (tracks_connect _ _ _ Hw) as (w1 & Hd & Hw1).
      destruct (IH _ _ _ Hw1 Hm) as (w2 & Hrun & Hw2).
      exists w2. split.
      * cbn [event_loop_turn]. unfold mbind, M_bind.
        now rewrite (run_task_ok _ _ _ Hd).
      * replace (opened + connects (Connect :: evs))
          with (S opened + connects evs) by (unfold connects; cbn; lia).
        exact Hw2.
    + apply andb_prop in Hm as [[Hlt Hg]%andb_prop Hm].
      apply Nat.ltb_lt in Hlt.
      assert (~ In c gone) as Hg'.
      { intros Hin. apply negb_true_iff in Hg.
        assert (existsb (Nat.eqb c) gone = true) as Hex.
        { apply existsb_exists. exists c. split; [exact Hin|apply Nat.eqb_refl]. }
        congruence. }
      destruct (tracks_close _ _ _ _ Hw Hlt Hg') as (w1 & Hd & Hw1).
      destruct (IH _ _ _ Hw1 Hm) as (w2 & Hrun & Hw2).
      exists w2. split.
      * cbn [event_loop_turn]. unfold mbind, M_bind.
        now rewrite (run_task_ok _ _ _ Hd).
      * replace (opened + connects (CloseSignal c :: evs))
          with (opened + connects evs) by (unfold connects; cbn; lia).
        replace (rev (closes (CloseSignal c :: evs)) ++ gone)
          with (rev (closes evs) ++ c :: gone).
        { exact Hw2. }
        unfold closes. cbn [omap list_omap rev].
        now rewrite <- app_assoc.
Qed.

Lemma tracks_boot : tracks 0 [] boot.
Proof.
  unfold tracks, boot. cbn. split_ands; try reflexivity.
  - intros c. split.
    + intros H%not_elem_of_empty. destruct H.
    + intros [H _]. lia.
  - intros c [].
Qed.

Lemma in_closes (c : Client) (evs : list ConnEvent) :
  In c (closes evs) <-> In (CloseSignal c) evs.
Proof.
  unfold closes. induction evs as [|ev evs IH]; [reflexivity|].
  destruct ev as [|c']; cbn [omap list_omap In].
  - rewrite IH. split; [auto|intros [H|H]; [discriminate|exact H]].
  - change (list_omap _ _ ?f evs) with (omap f evs).
    rewrite IH. split; (intros [H|H]; [left; congruence|right; exact H]).
Qed.

(** C6.  After any script of connects and close signals in which every
    close signal names a connection opened before it and not closed
    before it, the handlers have all run without error and the client
    set holds M - D connections for M connects and D disconnects: those
    that were opened and not closed. *)
Theorem client_set_size_is_connects_minus_disconnects
    (evs : list ConnEvent) :
  matched evs = true ->
  exists w,
    event_loop_turn evs boot = Ok tt w
    /\ size (connected_clients w) = connects evs - disconnects evs
    /\ disconnects evs <= connects evs
    /\ (forall c, c ∈ connected_clients w
                  <-> c < connects evs /\ ~ In (CloseSignal c) evs)
    /\ task_failures (trace w) = 0.
Proof.
  intros Hm.
  destruct (matched_run evs 0 [] boot tracks_boot Hm)
    as (w & Hrun & H1 & H2 & H3 & H4 & H5 & H6).
  exists w. split; [exact Hrun|].
  rewrite app_nil_r in H3, H4. rewrite length_rev in H4.
  cbn [Nat.add] in *. fold (disconnects evs) in H4.
  rewrite H2.
  split_ands; try lia; try exact H6.
  intros c. rewrite H3, <- in_rev, in_closes. reflexivity.
Qed.

(** *** Cleanup on disconnect *)

Lemma healthy_boot : healthy boot.
Proof.
  unfold healthy, boot. cbn. split_ands; try reflexivity.
  intros c H%not_elem_of_empty. destruct H.
Qed.

(** a handler's turn keeps the state healthy; a connection that is no
    longer parked stays so, and the one named by a close signal is not
    parked afterwards *)
Lemma healthy_deliver (ev : ConnEvent) (w : World) :
  healthy w ->
  exists w',
    deliver ev w = Ok tt w'
    /\ healthy w'
    /\ next_ws w' = next_ws w + connects [ev]
    /\ (forall c, c < next_ws w -> c ∉ waiting w -> c ∉ waiting w')
    /\ (forall c, ev = CloseSignal c -> c ∉ waiting w').
Proof.
  intros (J1 & J2 & J3 & J4).
  destruct ev as [|c].
  - eexists. split; [apply deliver_connect|].
    unfold healthy. cbn [connected_clients waiting next_ws trace].
    assert (next_ws w ∉ waiting w) as Hfresh.
    { intros H%J2. lia. }
    split_ands.
    + now rewrite J1.
    + intros c. rewrite elem_of_union, elem_of_singleton.
      intros [->|H%J2]; lia.
    + intros c. rewrite removals_app, J3.
      cbn [removals List.filter is_removal length].
      rewrite Nat.add_0_r. apply decide_ext.
      rewrite elem_of_union, elem_of_singleton. split.
      * intros [Hlt Hc]. split; [lia|].
        intros [->|Hin]; [lia|contradiction].
      * intros [Hlt Hc]. split; [|tauto].
        destruct (decide (c = next_ws w)); [tauto|lia].
    + rewrite task_failures_app, J4. reflexivity.
    + unfold connects. cbn. lia.
    + intros c Hlt Hc. rewrite elem_of_union, elem_of_singleton.
      intros [->|Hin]; [lia|contradiction].
    + intros c [=].
  - destruct (decide (c ∈ waiting w)) as [Hc|Hc].
    + eexists. split.
      { apply deliver_close_parked; [exact Hc|rewrite J1; exact Hc]. }
      unfold healthy. cbn [connected_clients waiting next_ws trace].
      split_ands.
      * now rewrite J1.
      * intros x [Hx _]%elem_of_difference. now apply J2.
      * intros x. rewrite removals_app, J3.
        cbn [removals List.filter is_removal length].
        destruct (Nat.eqb_spec c x) as [<-|Hne].
        -- rewrite decide_False by tauto.
           rewrite decide_True; [reflexivity|].
           split; [now apply J2|].
           rewrite elem_of_difference, not_elem_of_singleton. tauto.
        -- cbn [length]. rewrite Nat.add_0_r. apply decide_ext.
           rewrite elem_of_difference, not_elem_of_singleton.
           split; intros [Hlt Hx]; (split; [exact Hlt|]).
           ++ intros [Hin _]. contradiction.
           ++ intros Hin. apply Hx. split; [exact Hin|congruence].
      * rewrite task_failures_app, J4. reflexivity.
      * unfold connects. cbn. lia.
      * intros x _ Hx [Hin _]%elem_of_difference. contradiction.
      * intros x [= <-]. rewrite elem_of_difference, not_elem_of_singleton.
        tauto.
    + exists w. split; [apply deliver_close_stray, Hc|].
      split_ands; auto.
      * unfold healthy. auto.
      * intros x [= <-]. exact Hc.
Qed.

Lemma healthy_run (evs : list ConnEvent) : forall w,
  healthy w ->
  exists w',
    event_loop_turn evs w = Ok tt w'
    /\ healthy w'
    /\ next_ws w' = next_ws w + connects evs
    /\ (forall c, c < next_ws w -> c ∉ waiting w -> c ∉ waiting w').
Proof.
  induction evs as [|ev evs IH]; intros w Hw.
  - exists w. split_ands; auto; unfold connects; cbn; lia.
  - destruct (healthy_deliver ev w Hw) as (w1 & Hd & Hw1 & Hn1 & Hk1 & _).
    destruct (IH w1 Hw1) as (w2 & Hrun & Hw2 & Hn2 & Hk2).
    exists w2. split_ands; auto.
    + cbn [event_loop_turn]. unfold mbind, M_bind.
      now rewrite (run_task_ok _ _ _ Hd).
    + rewrite Hn2, Hn1. unfold connects. destruct ev; cbn; lia.
    + intros c Hlt Hc. apply Hk2; [lia|]. now apply Hk1.
Qed.

Lemma event_loop_turn_app (evs1 evs2 : list ConnEvent) : forall w,
  event_loop_turn (evs1 ++ evs2) w
  = (event_loop_turn evs1 ;; event_loop_turn evs2) w.
Proof.
  induction evs1 as [|ev evs1 IH]; intros w; [reflexivity|].
  cbn [app event_loop_turn]. unfold mbind, M_bind in *.
  destruct (run_task (deliver ev) w); [apply IH|reflexivity].
Qed.

(** C8.  Whatever connects and close signals arrive, in whatever order
    and however often repeated, no handler fails; a connection is taken
    out of the client set at most once, and exactly once if a close
    signal came for it after it was made; a second close signal for the
    same connection changes nothing; and the client set holds no
    connection that has been closed (every member still has its handler
    parked and has never been removed) and no connection twice. *)
Theorem disconnect_cleanup_exactly_once (evs : list ConnEvent) :
  exists w,
    event_loop_turn evs boot = Ok tt w
    /\ task_failures (trace w) = 0
    /\ (forall c, removals c (trace w) <= 1)
    /\ (forall pre c post,
          evs = pre ++ CloseSignal c :: post -> c < connects pre ->
          (c ∉ connected_clients w) /\ removals c (trace w) = 1)
    /\ (forall c, c ∈ connected_clients w ->
          c < connects evs /\ c ∈ waiting w /\ removals c (trace w) = 0)
    /\ NoDup (elements (connected_clients w))
    /\ (forall c,
          event_loop_turn (evs ++ [CloseSignal c; CloseSignal c]) boot
          = event_loop_turn (evs ++ [CloseSignal c]) boot).
Proof.
  destruct (healthy_run evs boot healthy_boot) as (w & Hrun & Hw & Hn & _).
  pose proof Hw as (J1 & J2 & J3 & J4).
  exists w. split_ands; auto.
  - intros c. rewrite J3. destruct (decide _); lia.
  - intros pre c post -> Hlt.
    destruct (healthy_run pre boot healthy_boot) as (w1 & Hr1 & Hw1 & Hn1 & _).
    destruct (healthy_deliver (CloseSignal c) w1 Hw1)
      as (w2 & Hd & Hw2 & Hn2 & _ & Hout).
    destruct (healthy_run post w2 Hw2) as (w3 & Hr3 & Hw3 & Hn3 & Hk3).
    rewrite event_loop_turn_app in Hrun. unfold mbind, M_bind in Hrun.
    rewrite Hr1 in Hrun. cbn [event_loop_turn] in Hrun.
    unfold mbind, M_bind in Hrun.
    rewrite (run_task_ok _ _ _ Hd), Hr3 in Hrun.
    injection Hrun as <-.
    cbn in Hn1.
    assert (c < next_ws w2) as Hlt2 by lia.
    assert (c ∉ waiting w3) as Hgone by (apply Hk3; [exact Hlt2|now apply Hout]).
    split; [now rewrite J1|].
    rewrite J3. apply decide_True. split; [lia|exact Hgone].
  - intros c Hc. rewrite J1 in Hc. split_ands.
    + apply J2 in Hc. cbn in Hn. lia.
    + exact Hc.
    + rewrite J3. apply decide_False. tauto.
  - apply NoDup_elements.
  - intros c.
    rewrite !event_loop_turn_app. unfold mbind, M_bind. rewrite Hrun.
    destruct (healthy_deliver (CloseSignal c) w Hw)
      as (w1 & Hd & Hw1 & _ & _ & Hout).
    cbn [event_loop_turn]. unfold mbind, M_bind.
    rewrite (run_task_ok _ _ _ Hd).
    now rewrite (run_task_ok _ _ _ (deliver_close_stray c w1 (Hout c eq_refl))).
Qed.

Section Broadcast.

Variable isoformat_at : nat -> string.

(** a send whose exception is kept as a value leaves its event behind
    either way *)
Lemma try_client_send (broken : gset Client) (c : Client) (msg : string)
    (w : World) :
  exists r,
    try_ (client_send broken c msg) w
    = Ok r (mkWorld (connected_clients w) (waiting w) (next_ws w) (files w)
                    (clock w) (trace w ++ broadcast_events broken msg [c])).
Proof.
  unfold try_, client_send, emit, broadcast_events. cbn [map].
  destruct (decide (c ∈ broken)); eexists; reflexivity.
Qed.

(** the gather attempts every send, in the order of the list, and itself
    never raises *)
Lemma gather_sends (broken : gset Client) (msg : string) (cs : list Client) :
  forall w, exists rs,
    gather_return_exceptions (map (fun c => client_send broken c msg) cs) w
    = Ok rs (mkWorld (connected_clients w) (waiting w) (next_ws w) (files w)
                     (clock w) (trace w ++ broadcast_events broken msg cs)).
Proof.
  induction cs as [|c cs IH]; intros w.
  - exists []. destruct w. cbn. now rewrite app_nil_r.
  - cbn [map gather_return_exceptions].
    unfold mbind, M_bind.
    destruct (try_client_send broken c msg w) as [r ->].
    match goal with
    | |- context [gather_return_exceptions _ ?w1] =>
        destruct (IH w1) as [rs ->]
    end.
    eexists. cbn. rewrite <- app_assoc. reflexivity.
Qed.

Lemma send_notification_spec (broken : gset Client) (w : World) :
  send_notification_to_clients isoformat_at broken w
  = Ok tt (mkWorld (connected_clients w) (waiting w) (next_ws w) (files w)
             (if decide (connected_clients w ≠ ∅) then S (clock w)
              else clock w)
             (trace w ++ broadcast_events broken
                           (json_dumps (notification (isoformat_at (clock w))))
                           (elements (connected_clients w)))).
Proof.
  unfold send_notification_to_clients.
  destruct (decide (connected_clients w ≠ ∅)) as [Hne|He].
  - unfold mbind, M_bind, datetime_now_isoformat.
    match goal with
    | |- context [gather_return_exceptions (map _ ?cs) ?w1] =>
        destruct (gather_sends broken
                    (json_dumps (notification (isoformat_at (clock w))))
                    cs w1) as [rs ->]
    end.
    reflexivity.
  - apply dec_stable in He.
    destruct w as [cc wt nx fl ck tr]; cbn in *; subst cc.
    now rewrite elements_empty, app_nil_r.
Qed.

(** C5.  A broadcast attempts one send per member of the client set,
    the same message for all; a send that raises is kept as a value of the
    gather, so every client whose connection works is still sent the
    message, the call returns normally, and the client set (as well as
    the set of parked handlers) is the same afterwards as before. *)
Theorem broadcast_survives_send_failures (broken : gset Client) (w : World) :
  exists w' msg sends,
    send_notification_to_clients isoformat_at broken w = Ok tt w'
    /\ connected_clients w' = connected_clients w
    /\ waiting w' = waiting w
    /\ trace w' = trace w ++ sends
    /\ length sends = size (connected_clients w)
    /\ (forall c, c ∈ connected_clients w ->
          In (EvSend c msg (if decide (c ∈ broken) then false else true))
             sends)
    /\ (forall c, c ∈ connected_clients w -> c ∉ broken ->
          In (EvSend c msg true) sends)
    /\ removals_in sends = 0.
Proof.
  eexists _, (json_dumps (notification (isoformat_at (clock w)))), _.
  split; [apply send_notification_spec|].
  cbn [connected_clients waiting trace].
  assert (forall c, c ∈ connected_clients w ->
            In (EvSend c (json_dumps (notification (isoformat_at (clock w))))
                  (if decide (c ∈ broken) then false else true))
               (broadcast_events broken
                  (json_dumps (notification (isoformat_at (clock w))))
                  (elements (connected_clients w)))) as Hall.
  { intros c Hc. unfold broadcast_events.
    apply in_map_iff. exists c. split; [reflexivity|].
    apply list_elem_of_In, elem_of_elements, Hc. }
  repeat split; auto.
  - unfold broadcast_events, size, set_size. cbn. now rewrite length_map.
  - intros c Hc Hnb. specialize (Hall c Hc).
    destruct (decide (c ∈ broken)); [contradiction|exact Hall].
  - clear Hall. unfold removals_in, broadcast_events.
    induction (elements (connected_clients w)); cbn; auto.
Qed.

(** C7.  With an empty client set the broadcast does nothing at all: no
    reading of the clock, no message, no send; the process state is left
    as it was. *)
Theorem broadcast_to_nobody_is_noop (broken : gset Client) (w : World) :
  connected_clients w = ∅ ->
  send_notification_to_clients isoformat_at broken w = Ok tt w.
Proof.
  intros He. unfold send_notification_to_clients.
  destruct (decide (connected_clients w ≠ ∅)); [contradiction|reflexivity].
Qed.


Context {Frame : Type}.
Variable jpeg : Frame -> bytes.

(** the capture branch, effect by effect *)
Lemma capture_and_notify_spec (frame : Frame) (written : bool)
    (broken : gset Client) (w : World) :
  capture_and_notify isoformat_at jpeg frame written broken w
  = Ok tt
      (mkWorld (connected_clients w) (waiting w) (next_ws w)
         (if written then <[LATEST_IMAGE_FILENAME := jpeg frame]> (files w)
          else files w)
         (if decide (connected_clients w ≠ ∅) then S (clock w) else clock w)
         (trace w ++
          [EvImwrite LATEST_IMAGE_FILENAME (jpeg frame)] ++
          broadcast_events broken
            (json_dumps (notification (isoformat_at (clock w))))
            (elements (connected_clients w)) ++
          [EvPrint ("✓ Picture captured and saved as "
                    +:+ LATEST_IMAGE_FILENAME);
           EvPrint ("  Sent notification to "
                    +:+ py_str (size (connected_clients w))
                    +:+ " client(s)")])).
Proof.
  unfold capture_and_notify, mbind, M_bind, imwrite.
  rewrite send_notification_spec.
  unfold len_connected_clients, print, emit. cbn.
  rewrite <- !app_assoc. reflexivity.
Qed.






(** *** What a capture session may do *)














Variable device_opens : nat -> bool.


(** with no camera, [main] has its servers up before it finds out, then
    logs the error, captures nothing and shuts the pub/sub server down *)
Lemma main_without_camera (ticks : list (Tick Frame)) (w : World) :
  device_opens 0 = false -> device_opens 1 = false ->
  main isoformat_at jpeg device_opens ticks w
  = Ok (Done DeviceUnavailable)
       (mkWorld (connected_clients w) (waiting w) (next_ws w) (files w)
          (clock w)
          (trace w ++
           [EvThreadStart "start_http_server";
            EvWsListen "localhost" 8765;
            EvPrint "WebSocket server started on ws://localhost:8765";
            EvVideoCapture 0;
            EvPrint "Camera 0 not available, trying camera 1...";
            EvVideoCapture 1;
            EvPrint "Error: Could not open webcam";
            EvWsShutdown])).
Proof.
  intros E0 E1.
  unfold main, webcam_loop, VideoCapture, print, emit.
  unfold mbind, M_bind, mret, M_ret.
  cbn [connected_clients waiting next_ws files clock trace isOpened].
  rewrite E0. cbn [negb isOpened].
  cbn [connected_clients waiting next_ws files clock trace isOpened].
  rewrite E1. cbn [negb].
  cbn [connected_clients waiting next_ws files clock trace isOpened].
  rewrite <- !app_assoc. reflexivity.
Qed.

End Broadcast.

End SnapshotFacts.

(** ** Startup of both scripts *)
Module StartupFacts.


(** C9, as the claim states it, fails in snapshot mode: with no camera
    at all, [main] has its pub/sub socket listening although no device
    has opened. *)
Lemma snapshot_listens_with_no_device_open :
  exists w,
    Snapshot.main Sample.isoformat_at Sample.jpeg Sample.no_camera []
      Snapshot.boot
    = Ok (Done DeviceUnavailable) w
    /\ In (EvWsListen "localhost" 8765) (Snapshot.trace w)
    /\ listens_only_once_open Sample.no_camera false (Snapshot.trace w)
       = false.
Proof.
  eexists. split; [vm_compute; reflexivity|].
  split; [vm_compute; tauto|vm_compute; reflexivity].
Qed.

(** C9, amended.  When neither camera index opens, the error is logged
    and nothing is captured.  In stream mode [run_server] returns before
    any socket is bound.  In snapshot mode the HTTP thread has been
    started and the pub/sub socket is listening before the camera is
    tried; [webcam_loop] then logs the error and returns without a read,
    and the pub/sub server is shut down as [main] returns. *)
Theorem no_camera_ends_startup
    (device_opens : nat -> bool) (chdir_error : option exn)
    (port_free interrupted : bool)
    (getcwd : string) (isoformat_at : nat -> string)
    {Frame : Type} (jpeg : Frame -> bytes)
    (ticks : list (Snapshot.Tick Frame)) (w : Snapshot.World) :
  device_opens 0 = false ->
  device_opens 1 = false ->
  exists evs w' evs',
    Stream.run_server device_opens chdir_error getcwd port_free interrupted
      [] = Ok (Done DeviceUnavailable) evs
    /\ evs = [EvVideoCapture 0; EvVideoCapture 1;
              EvPrint "Error: Could not open webcam"]
    /\ listens_only_once_open device_opens false evs = true
    /\ Snapshot.main isoformat_at jpeg device_opens ticks w
       = Ok (Done DeviceUnavailable) w'
    /\ Snapshot.trace w' = Snapshot.trace w ++ evs'
    /\ evs' = [EvThreadStart "start_http_server";
               EvWsListen "localhost" 8765;
               EvPrint "WebSocket server started on ws://localhost:8765";
               EvVideoCapture 0;
               EvPrint "Camera 0 not available, trying camera 1...";
               EvVideoCapture 1;
               EvPrint "Error: Could not open webcam";
               EvWsShutdown]
    /\ captures_used evs = [] /\ captures_used evs' = []
    /\ Snapshot.connected_clients w' = Snapshot.connected_clients w
    /\ Snapshot.files w' = Snapshot.files w.
Proof.
  intros E0 E1.
  destruct (StreamFacts.run_server_opens device_opens chdir_error getcwd
              port_free interrupted)
    as (r & evs & Hrun & _ & _ & _ & Hl & Hcase).
  rewrite E0, E1 in Hcase. destruct Hcase as [Hr ->]. rewrite Hr in Hrun.
  eexists _, _, _.
  split; [exact Hrun|]. split; [reflexivity|]. split; [exact Hl|].
  split; [apply SnapshotFacts.main_without_camera; assumption|].
  cbn. repeat split; reflexivity.
Qed.

End StartupFacts.

(** ** The theorems at sample inputs *)
Module Witnesses.


Lemma encode_failures_are_skipped_witness :
  (exists h,
     Stream.do_GET Sample.imencode_raising "SimpleHTTP/0.6 Python/3.11"
       "Mon, 01 Jan 2024 12:00:00 GMT" Sample.static_do_GET "/video_feed"
       (map Some [2; 0; 1]) (Stream.accepted "HTTP/1.1" false 9)
     = Ok StillRunning h
     /\ length (omap (Stream.encoding Sample.imencode_raising) [2; 0; 1]) = 2)
  /\ (exists h,
        Stream.do_GET Sample.imencode_raising "SimpleHTTP/0.6 Python/3.11"
          "Mon, 01 Jan 2024 12:00:00 GMT" Sample.static_do_GET "/video_feed"
          (map Some [2; 0; 1] ++ [Some 13; Some 4])
          (Stream.accepted "HTTP/1.1" false 9)
        = Ok (Done Swallowed) h).
Proof.
  destruct (StreamFacts.encode_failures_are_skipped Sample.imencode_raising
              "SimpleHTTP/0.6 Python/3.11" "Mon, 01 Jan 2024 12:00:00 GMT"
              Sample.static_do_GET "HTTP/1.1" false [2; 0; 1] 9)
    as [(h & Hrun & _ & Hlen & _) Hraise].
  - repeat constructor; eexists; reflexivity.
  - cbn. lia.
  - split.
    + exists h. split; [exact Hrun|exact Hlen].
    + destruct (Hraise 13 CvError [Some 4] eq_refl) as (h' & Hrun' & _).
      exists h'. exact Hrun'.
Defined.


Lemma client_set_size_witness :
  exists w,
    Snapshot.event_loop_turn
      [Snapshot.Connect; Snapshot.Connect; Snapshot.CloseSignal 0;
       Snapshot.Connect; Snapshot.CloseSignal 2] Snapshot.boot = Ok tt w
    /\ size (Snapshot.connected_clients w) = 1.
Proof.
  destruct (SnapshotFacts.client_set_size_is_connects_minus_disconnects
              [Snapshot.Connect; Snapshot.Connect; Snapshot.CloseSignal 0;
               Snapshot.Connect; Snapshot.CloseSignal 2])
    as (w & Hrun & Hsize & _).
  - reflexivity.
  - exists w. split; [exact Hrun|exact Hsize].
Defined.

Lemma broadcast_to_nobody_is_noop_witness :
  Snapshot.send_notification_to_clients Sample.isoformat_at {[3]}
    Snapshot.boot = Ok tt Snapshot.boot.
Proof.
  apply (SnapshotFacts.broadcast_to_nobody_is_noop Sample.isoformat_at
           {[3]} Snapshot.boot).
  reflexivity.
Defined.

Lemma no_camera_ends_startup_witness :
  exists w',
    Snapshot.main Sample.isoformat_at Sample.jpeg Sample.no_camera
      [Snapshot.mkTick (Some 2) 115 true ∅ []] Snapshot.boot
    = Ok (Done DeviceUnavailable) w'.
Proof.
  destruct (StartupFacts.no_camera_ends_startup Sample.no_camera None true
              false "/srv/display" Sample.isoformat_at Sample.jpeg
              [Snapshot.mkTick (Some 2) 115 true ∅ []] Snapshot.boot)
    as (evs & w' & evs' & _ & _ & _ & Hmain & _).
  - reflexivity.
  - reflexivity.
  - exists w'. exact Hmain.
Defined.

End Witnesses.

(** ** Further properties: continuous-stream mode *)
Module StreamMore.
Import Stream Observe.
Import StreamFacts.

Section Feed.

Context {Frame : Type}.
Variable imencode : Frame -> call (option bytes).
Variables version_string date_time_string : string.
Variable version : string.
Variable close : bool.

(** X1.  A read that fails ends the stream: the frames read before it
    have been sent, the failure is printed, the function returns, and
    whatever the camera would deliver afterwards is never read. *)
Theorem read_failure_ends_stream
    (fs : list Frame) (rest : list (option Frame)) (writes : nat) :
  Forall (encode_returns imencode) fs ->
  part_writes version * length (omap (encoding imencode) fs)
  + head_writes version <= writes ->
  exists h,
    stream_video_feed imencode version_string date_time_string
      (map Some fs ++ None :: rest) (accepted version close writes)
    = Ok (Done CaptureError) h
    /\ wfile h
       = wire_head version version_string date_time_string
         ++ concat (map (wire_part version) (omap (encoding imencode) fs))
    /\ stdout h = ["Error: Failed to capture frame."]
    /\ access_log h = [200].
Proof.
  intros Hfs Hw.
  replace writes
    with (head_writes version
          + (part_writes version * length (omap (encoding imencode) fs)
             + (writes
                - part_writes version * length (omap (encoding imencode) fs)
                - head_writes version))) by lia.
  rewrite feed_head_ok. chain. unfold try_.
  rewrite (stream_loop_app imencode version close fs _ Hfs).
  cbn [stream_loop]. chain.
  eexists. split; [reflexivity|]. cbn. auto.
Qed.

(** whatever the camera, the encoder and the peer do, the loop inside its
    [try] ends in one of three ways *)
Lemma try_stream_loop_returns (reads : list (option Frame)) :
  forall h0 : Handler,
  exists st h,
    (r ← try_ (stream_loop imencode reads);
     match r with
     | inl st => mret st
     | inr _ => mret (Done Swallowed)
     end) h0 = Ok st h
    /\ (st = StillRunning \/ st = Done CaptureError \/ st = Done Swallowed).
Proof.
  chain. unfold try_.
  induction reads as [|[f|] reads IH]; intros h0; cbn [stream_loop].
  - eexists _, _. split; [reflexivity|]. auto.
  - destruct (imencode f) as [[buffer|]|e]; [|apply IH|].
    + chain.
      destruct (send_part buffer h0) as [[] h1|e h1]; [apply IH|].
      eexists _, _. split; [reflexivity|]. auto.
    + eexists _, _. split; [reflexivity|]. auto.
  - chain. eexists _, _. split; [reflexivity|]. auto.
Qed.

(** X2.  The response head is written outside the [try]: for a request
    with a protocol version, if the peer is gone before the head,
    BrokenPipeError leaves the function with nothing sent.  In every other
    case no exception leaves the function, whatever the camera, the
    encoder and the peer do: it is still streaming, or it has returned
    after a failed read or after an exception caught by the [except]
    around the loop. *)
Theorem only_the_head_can_raise
    (reads : list (option Frame)) (writes : nat) :
  if has_version version && Nat.eqb writes 0 then
    exists h,
      stream_video_feed imencode version_string date_time_string reads
        (accepted version close writes) = Raise BrokenPipeError h
      /\ wfile h = [] /\ access_log h = [200]
  else
    exists st h,
      stream_video_feed imencode version_string date_time_string reads
        (accepted version close writes) = Ok st h
      /\ (st = StillRunning \/ st = Done CaptureError \/ st = Done Swallowed).
Proof.
  destruct (has_version version) eqn:Hv; cbn [andb].
  - destruct writes as [|k]; cbn [Nat.eqb].
    + unfold stream_video_feed, send_response, accepted. chain.
      step log_request_ok. step send_response_only_versioned.
      do 4 step send_header_versioned.
      step end_headers_gone.
      eexists. split; [reflexivity|]. split; reflexivity.
    + pose proof (feed_head_ok imencode version_string date_time_string
                    version close reads k) as Hhead.
      unfold head_writes in Hhead. rewrite Hv in Hhead.
      cbn [Nat.add] in Hhead. rewrite Hhead.
      apply try_stream_loop_returns.
  - pose proof (feed_head_ok imencode version_string date_time_string
                  version close reads writes) as Hhead.
    unfold head_writes in Hhead. rewrite Hv in Hhead.
    cbn [Nat.add] in Hhead. rewrite Hhead.
    apply try_stream_loop_returns.
Qed.

(** X3.  The loop paces and pays per part sent: one sleep for each frame
    that encodes and none for a frame that is skipped; for a request with
    a protocol version four socket writes per part and one for the
    response head, for a request without one three writes per part and
    none for a head. *)
Theorem sleeps_and_writes_per_part (fs : list Frame) (writes : nat) :
  Forall (encode_returns imencode) fs ->
  part_writes version * length (omap (encoding imencode) fs)
  + head_writes version <= writes ->
  exists h,
    stream_video_feed imencode version_string date_time_string
      (map Some fs) (accepted version close writes) = Ok StillRunning h
    /\ sleeps h = length (omap (encoding imencode) fs)
    /\ peer_writes h
       = writes - head_writes version
         - part_writes version * length (omap (encoding imencode) fs)
    /\ head_writes version = (if has_version version then 1 else 0)
    /\ part_writes version = (if has_version version then 4 else 3)
    /\ headers_buffer h = (if has_version version then Some [] else None).
Proof.
  intros Hfs Hw.
  replace (accepted version close writes)
    with (accepted version close
            (head_writes version
             + (part_writes version * length (omap (encoding imencode) fs)
                + (writes
                   - part_writes version
                     * length (omap (encoding imencode) fs)
                   - head_writes version)))) by (f_equal; lia).
  rewrite (stream_video_feed_ok imencode version_string date_time_string
             version close fs _ Hfs).
  eexists. split; [reflexivity|].
  cbn [sleeps peer_writes headers_buffer].
  repeat split; try reflexivity. lia.
Qed.

Lemma wfile_write_gone (b : bytes) hb wf al so sl :
  wfile_write b (mkHandler version close hb wf 0 al so sl)
  = Raise BrokenPipeError (mkHandler version close hb wf 0 al so sl).
Proof. reflexivity. Qed.

(** a part cut short by a peer that is gone raises, after sending fewer
    writes than it takes; it prints and logs nothing *)
Lemma send_part_short (buffer wf : bytes) (pw : nat) al so sl :
  pw < part_writes version ->
  exists e h',
    send_part buffer
      (mkHandler version close (idle_buffer version) wf pw al so sl)
    = Raise e h'
    /\ stdout h' = so /\ access_log h' = al.
Proof.
  unfold idle_buffer, part_writes, send_part.
  destruct (has_version version) eqn:Hv; chain; intros Hlt.
  - destruct pw as [|[|[|[|pw]]]]; try lia.
    + step wfile_write_gone.
      eexists _, _. split; [reflexivity|split; reflexivity].
    + step wfile_write_ok. do 2 step send_header_versioned.
      step end_headers_gone.
      eexists _, _. split; [reflexivity|split; reflexivity].
    + step wfile_write_ok. do 2 step send_header_versioned.
      step end_headers_versioned. step wfile_write_gone.
      eexists _, _. split; [reflexivity|split; reflexivity].
    + step wfile_write_ok. do 2 step send_header_versioned.
      step end_headers_versioned. step wfile_write_ok.
      step wfile_write_gone.
      eexists _, _. split; [reflexivity|split; reflexivity].
  - destruct pw as [|[|[|pw]]]; try lia.
    + step wfile_write_gone.
      eexists _, _. split; [reflexivity|split; reflexivity].
    + step wfile_write_ok. do 2 step send_header_bare.
      step end_headers_bare. step wfile_write_gone.
      eexists _, _. split; [reflexivity|split; reflexivity].
    + step wfile_write_ok. do 2 step send_header_bare.
      step end_headers_bare. step wfile_write_ok. step wfile_write_gone.
      eexists _, _. split; [reflexivity|split; reflexivity].
Qed.

Lemma stream_loop_peer_gone (fs : list Frame) (tail : list (option Frame)) :
  forall wf pw al so sl,
    pw < part_writes version * length (omap (encoding imencode) fs) ->
    exists e h',
      stream_loop imencode (map Some fs ++ tail)
        (mkHandler version close (idle_buffer version) wf pw al so sl)
      = Raise e h'
      /\ stdout h' = so /\ access_log h' = al.
Proof.
  induction fs as [|f fs IH]; intros wf pw al so sl Hlt.
  - cbn in Hlt. lia.
  - cbn [map app stream_loop].
    destruct (imencode f) as [r|e] eqn:Hf.
    + rewrite (omap_cons_returns imencode f fs r Hf) in Hlt.
      destruct r as [buffer|]; [|now apply IH].
      cbn [length] in Hlt. chain.
      destruct (Nat.lt_ge_cases pw (part_writes version)) as [Hs|Hs].
      * destruct (send_part_short buffer wf pw al so sl Hs)
          as (e & h' & -> & Hso & Hal).
        now exists e, h'.
      * replace pw with (part_writes version + (pw - part_writes version))
          by lia.
        rewrite send_part_ok. cbv beta iota. apply IH. lia.
    + eexists _, _. split; [reflexivity|split; reflexivity].
Qed.

(** X4.  A peer that goes away in mid-stream ends the stream quietly:
    the write that fails is swallowed, the function returns, nothing is
    printed, no further status is logged, and the reads that would
    follow are never made. *)
Theorem peer_gone_ends_stream_quietly
    (fs : list Frame) (rest : list (option Frame)) (writes : nat) :
  head_writes version <= writes ->
  writes < head_writes version
           + part_writes version * length (omap (encoding imencode) fs) ->
  exists h,
    stream_video_feed imencode version_string date_time_string
      (map Some fs ++ rest) (accepted version close writes)
    = Ok (Done Swallowed) h
    /\ stdout h = [] /\ access_log h = [200].
Proof.
  intros H1 H2.
  replace writes
    with (head_writes version + (writes - head_writes version)) by lia.
  rewrite feed_head_ok. chain. unfold try_.
  match goal with
  | |- context [stream_loop _ _ (mkHandler _ _ _ ?wf ?k ?al ?so ?sl)] =>
      destruct (stream_loop_peer_gone fs rest wf k al so sl)
        as (e & h' & -> & Hso & Hal); [lia|]
  end.
  cbn. exists h'. auto.
Qed.

End Feed.

Ltac run_server_cases device_opens chdir_error port_free interrupted :=
  unfold run_server_outcome, run_server, VideoCapture, chdir,
    ThreadedHTTPServer, proc_print, emit, try_;
  unfold mbind, M_bind, mret, M_ret; cbn [app isOpened];
  destruct (device_opens 0) eqn:?; cbn [negb app isOpened];
  [|destruct (device_opens 1) eqn:?; cbn [negb app isOpened]];
  destruct chdir_error as [[]|], port_free, interrupted; cbn [app];
  eexists; (split; [reflexivity|]); cbn; auto.


(** X6.  The HTTP socket is bound exactly when a camera has opened, the
    static root has been entered and the address is free, and then only
    once; the server is closed only if it was bound and the interrupt
    came. *)
Theorem run_server_binds_iff_camera_root_and_port
    (device_opens : nat -> bool) (chdir_error : option exn)
    (getcwd : string) (port_free interrupted : bool) :
  exists evs,
    final (run_server device_opens chdir_error getcwd port_free interrupted
             []) = evs
    /\ http_binds evs
       = (if (device_opens 0 || device_opens 1)
             && bool_decide (chdir_error = None) && port_free
          then 1 else 0)
    /\ server_closes evs
       = (if (device_opens 0 || device_opens 1)
             && bool_decide (chdir_error = None) && port_free && interrupted
          then 1 else 0).
Proof.
  run_server_cases device_opens chdir_error port_free interrupted.
Qed.

End StreamMore.

(** ** Further properties: snapshot-notify mode *)
Module SnapshotMore.
Import Snapshot Observe.

Ltac split_ands := repeat match goal with |- _ /\ _ => split end.

(** *** Computations that never raise *)









(** X14.  A subscriber that connects and is closed again leaves the
    client set, and the set of parked handlers, exactly as they were, and
    is removed once: insert and remove cancel out. *)
Theorem connect_then_close_restores (w : World) :
  healthy w ->
  exists w',
    event_loop_turn [Connect; CloseSignal (next_ws w)] w = Ok tt w'
    /\ connected_clients w' = connected_clients w
    /\ waiting w' = waiting w
    /\ next_ws w' = S (next_ws w)
    /\ removals (next_ws w) (trace w') = 1
    /\ task_failures (trace w') = 0.
Proof.
  intros (J1 & J2 & J3 & J4).
  assert (next_ws w ∉ waiting w) as Hfresh by (intros H%J2; lia).
  pose proof (SnapshotFacts.deliver_connect w) as Hc.
  match type of Hc with
  | _ = Ok tt ?w1 =>
      assert (next_ws w ∈ waiting w1) as Hin1
        by (cbn; apply elem_of_union_l, elem_of_singleton; reflexivity);
      assert (next_ws w ∈ connected_clients w1) as Hin2
        by (cbn; apply elem_of_union_l, elem_of_singleton; reflexivity);
      pose proof (SnapshotFacts.deliver_close_parked (next_ws w) w1 Hin1 Hin2)
        as Hd
  end.
  cbn [connected_clients waiting next_ws files clock trace] in Hd.
  eexists. split.
  { cbn [event_loop_turn]. unfold mbind, M_bind.
    rewrite (SnapshotFacts.run_task_ok _ _ _ Hc).
    rewrite (SnapshotFacts.run_task_ok _ _ _ Hd). reflexivity. }
  cbn [connected_clients waiting next_ws trace].
  split_ands.
  - rewrite J1 in *. apply set_eq. intros x.
    rewrite elem_of_difference, elem_of_union, elem_of_singleton.
    split; [tauto|]. intros Hx. split; [tauto|]. intros ->. contradiction.
  - apply set_eq. intros x.
    rewrite elem_of_difference, elem_of_union, elem_of_singleton.
    split; [tauto|]. intros Hx. split; [tauto|]. intros ->. contradiction.
  - reflexivity.
  - rewrite <- !app_assoc, SnapshotFacts.removals_app, J3.
    rewrite decide_False by (intros [H _]; lia).
    cbn. now rewrite Nat.eqb_refl.
  - rewrite <- !app_assoc, SnapshotFacts.task_failures_app, J4. reflexivity.
Qed.

Section Loop.

Variable isoformat_at : nat -> string.
Context {Frame : Type}.
Variable jpeg : Frame -> bytes.





(** *** One pass of the loop, case by case *)

Lemma pass_read_failed (cap : Capture) (tk : Tick Frame) (fullscreen : bool)
    (w : World) :
  read tk = None ->
  loop_body isoformat_at jpeg cap tk fullscreen w
  = Ok (inl CaptureError)
       (mkWorld (connected_clients w) (waiting w) (next_ws w) (files w)
          (clock w)
          (trace w ++ [EvCapRead cap;
                       EvPrint "Error: Failed to capture frame"])).
Proof.
  intros Hr. unfold loop_body. rewrite Hr.
  unfold mbind, M_bind, print, emit. cbn. now rewrite <- app_assoc.
Qed.

Lemma pass_quit (cap : Capture) (tk : Tick Frame) (fullscreen : bool)
    (w : World) (frame : Frame) :
  read tk = Some frame ->
  ((low_byte tk =? 113) || (low_byte tk =? 27))%Z = true ->
  loop_body isoformat_at jpeg cap tk fullscreen w
  = Ok (inl Quit)
       (mkWorld (connected_clients w) (waiting w) (next_ws w) (files w)
          (clock w)
          (trace w ++ [EvCapRead cap; EvImshow window_name; EvWaitKey])).
Proof.
  intros Hr Hq. unfold loop_body. unfold low_byte in Hq. rewrite Hr, Hq.
  unfold mbind, M_bind, emit. cbn. now rewrite <- !app_assoc.
Qed.

(** a pass that goes on: what precedes the sleep is [before], then the
    handlers have their turn *)
Lemma pass_continues (cap : Capture) (tk : Tick Frame) (fullscreen : bool)
    (w : World) (frame : Frame) :
  read tk = Some frame ->
  ((low_byte tk =? 113) || (low_byte tk =? 27))%Z = false ->
  exists w' t,
    loop_body isoformat_at jpeg cap tk fullscreen w
    = Ok (inr (if (low_byte tk =? 115)%Z then fullscreen
               else if (low_byte tk =? 102)%Z then negb fullscreen
               else fullscreen)) w'
    /\ forallb handler_event t = true
    /\ files w'
       = (if (low_byte tk =? 115)%Z && written tk
          then <[LATEST_IMAGE_FILENAME := jpeg frame]> (files w)
          else files w)
    /\ clock w'
       = (if (low_byte tk =? 115)%Z
          then if decide (connected_clients w ≠ ∅) then S (clock w)
               else clock w
          else clock w)
    /\ trace w'
       = trace w ++
         [EvCapRead cap; EvImshow window_name; EvWaitKey] ++
         (if (low_byte tk =? 115)%Z then
            [EvImwrite LATEST_IMAGE_FILENAME (jpeg frame)] ++
            broadcast_events (broken tk)
              (json_dumps (notification (isoformat_at (clock w))))
              (elements (connected_clients w)) ++
            [EvPrint ("✓ Picture captured and saved as "
                      +:+ LATEST_IMAGE_FILENAME);
             EvPrint ("  Sent notification to "
                      +:+ py_str (size (connected_clients w))
                      +:+ " client(s)")]
          else if (low_byte tk =? 102)%Z then
            [EvSetFullscreen (negb fullscreen)]
          else []) ++
         [EvSleep] ++ t.
Proof.
  intros Hr Hq. unfold loop_body. unfold low_byte in *. rewrite Hr, Hq.
  unfold mbind, M_bind, emit.
  cbn [connected_clients waiting next_ws files clock trace].
  destruct (Z.land (key tk) 255 =? 115)%Z.
  - rewrite SnapshotFacts.capture_and_notify_spec.
    cbn [mret M_ret connected_clients waiting next_ws files clock trace].
    match goal with
    | |- context [event_loop_turn _ ?w1] =>
        destruct (SnapshotFacts.event_loop_turn_frame (arrivals tk) w1)
          as (w2 & t & -> & Hf & Hc & Ht & Hh)
    end.
    exists w2, t. split; [reflexivity|].
    rewrite Ht, Hf, Hc. cbn [trace files clock andb].
    split_ands; auto. rewrite <- !app_assoc. reflexivity.
  - destruct (Z.land (key tk) 255 =? 102)%Z;
      cbn [mret M_ret connected_clients waiting next_ws files clock trace];
      match goal with
      | |- context [event_loop_turn _ ?w1] =>
          destruct (SnapshotFacts.event_loop_turn_frame (arrivals tk) w1)
            as (w2 & t & -> & Hf & Hc & Ht & Hh)
      end;
      exists w2, t; (split; [reflexivity|]);
      rewrite Ht, Hf, Hc; cbn [trace files clock];
      split_ands; auto; rewrite <- !app_assoc; reflexivity.
Qed.

Lemma handler_events_quiet (t : list Event) :
  forallb handler_event t = true -> fullscreen_events t = [].
Proof.
  unfold fullscreen_events.
  induction t as [|ev t IH]; [reflexivity|].
  cbn [forallb]. intros [Hev Ht]%andb_prop.
  destruct ev; try discriminate Hev; cbn; auto.
Qed.

Lemma broadcast_quiet (broken : gset Client) (msg : string)
    (cs : list Client) :
  fullscreen_events (broadcast_events broken msg cs) = [].
Proof. induction cs as [|c cs IH]; cbn; auto. Qed.




Lemma toggled_alternates (passes : list (Tick Frame)) : forall fullscreen,
  toggled fullscreen passes
  = alternating (negb fullscreen) (length (List.filter is_toggle passes)).
Proof.
  induction passes as [|tk passes IH]; intros fullscreen; [reflexivity|].
  cbn [toggled List.filter]. destruct (is_toggle tk); cbn [length alternating].
  - f_equal. rewrite IH. reflexivity.
  - apply IH.
Qed.

(** what one pass does to the window: a switch to the opposite state if
    the loop goes on and the key is the toggle key, nothing otherwise *)
Lemma pass_switches (cap : Capture) (tk : Tick Frame) (fullscreen : bool)
    (w : World) :
  exists r w' t,
    loop_body isoformat_at jpeg cap tk fullscreen w = Ok r w'
    /\ trace w' = trace w ++ t
    /\ fullscreen_events t
       = (if goes_on tk && is_toggle tk then [negb fullscreen] else [])
    /\ match r with
       | inl _ => goes_on tk = false
       | inr b =>
           goes_on tk = true
           /\ b = (if is_toggle tk then negb fullscreen else fullscreen)
       end.
Proof.
  unfold goes_on, is_toggle.
  destruct (read tk) as [frame|] eqn:Hr.
  - destruct ((low_byte tk =? 113) || (low_byte tk =? 27))%Z eqn:Hq.
    + eexists _, _, _. split; [apply (pass_quit _ _ _ _ _ Hr Hq)|].
      cbn. auto.
    + destruct (pass_continues cap tk fullscreen w frame Hr Hq)
        as (w1 & t1 & Hrun & Hh & _ & _ & Ht1).
      pose proof (handler_events_quiet t1 Hh) as Hq1.
      eexists _, w1, _. split; [exact Hrun|]. split; [exact Ht1|].
      cbn [negb andb]. unfold fullscreen_events in *.
      rewrite !omap_app, Hq1.
      destruct (low_byte tk =? 115)%Z eqn:Hs.
      * rewrite !omap_app.
        fold (fullscreen_events
                (broadcast_events (broken tk)
                   (json_dumps (notification (isoformat_at (clock w))))
                   (elements (connected_clients w)))).
        rewrite broadcast_quiet.
        apply Z.eqb_eq in Hs. rewrite Hs. cbn. auto.
      * destruct (low_byte tk =? 102)%Z; cbn; auto.
  - eexists _, _, _. split; [apply (pass_read_failed _ _ _ _ Hr)|].
    cbn. auto.
Qed.

(** X11.  The window is switched by the toggle key and by nothing else:
    a pass switches it, once, if the loop goes on after the pass and the
    key is the toggle key, and does not touch it otherwise.  Each switch
    puts the window in the state opposite to the one before: from
    [fullscreen] the switches of a run read [negb fullscreen],
    [fullscreen], [negb fullscreen], and so on, one for each toggle pass
    made before the loop ends. *)
Theorem fullscreen_follows_toggle_key (cap : Capture) :
  (forall (tk : Tick Frame) fullscreen w,
   exists r w' t,
     loop_body isoformat_at jpeg cap tk fullscreen w = Ok r w'
     /\ trace w' = trace w ++ t
     /\ fullscreen_events t
        = (if goes_on tk && is_toggle tk then [negb fullscreen] else []))
  /\ (forall (ticks : list (Tick Frame)) fullscreen w,
      exists st w' t,
        capture_loop isoformat_at jpeg cap ticks fullscreen w = Ok st w'
        /\ trace w' = trace w ++ t
        /\ fullscreen_events t = toggled fullscreen (passes_made ticks)
        /\ toggled fullscreen (passes_made ticks)
           = alternating (negb fullscreen)
               (length (List.filter is_toggle (passes_made ticks)))).
Proof.
  split.
  { intros tk fullscreen w.
    destruct (pass_switches cap tk fullscreen w)
      as (r & w' & t & H1 & H2 & H3 & _).
    now exists r, w', t. }
  intros ticks fullscreen w.
  enough (exists st w' t,
             capture_loop isoformat_at jpeg cap ticks fullscreen w = Ok st w'
             /\ trace w' = trace w ++ t
             /\ fullscreen_events t = toggled fullscreen (passes_made ticks))
    as (st & w' & t & H1 & H2 & H3).
  { exists st, w', t. split_ands; auto. apply toggled_alternates. }
  revert fullscreen w.
  induction ticks as [|tk ticks IH]; intros fullscreen w;
    cbn [capture_loop passes_made].
  - exists StillRunning, w, []. rewrite app_nil_r. cbn. auto.
  - unfold mbind, M_bind.
    destruct (pass_switches cap tk fullscreen w)
      as (r & w1 & t1 & -> & Ht1 & Hf1 & Hr).
    destruct r as [why|b].
    + rewrite Hr in *. exists (Done why), w1, t1.
      split; [reflexivity|]. split; [exact Ht1|exact Hf1].
    + destruct Hr as [Hgo ->]. rewrite Hgo in *. cbn [andb] in Hf1.
      match goal with
      | |- context [capture_loop _ _ _ _ ?fs w1] =>
          destruct (IH fs w1) as (st & w' & t & -> & Ht & Hfs)
      end.
      exists st, w', (t1 ++ t). split; [reflexivity|].
      split; [rewrite Ht, Ht1, <- app_assoc; reflexivity|].
      cbn [toggled]. unfold fullscreen_events in *.
      rewrite omap_app, Hf1, Hfs.
      destruct (is_toggle tk); reflexivity.
Qed.

(** *** Who a broadcast reaches *)

Lemma recipients_broadcast (broken : gset Client) (msg : string)
    (cs : list Client) :
  recipients (broadcast_events broken msg cs) = cs.
Proof.
  unfold recipients, broadcast_events.
  induction cs as [|c cs IH]; [reflexivity|].
  cbn [map omap list_omap]. f_equal. exact IH.
Qed.

(** a connection that has been reported closed after it was made is out
    of the client set for good *)
Lemma closed_is_out (pre post : list ConnEvent) (c : Client) (w : World) :
  event_loop_turn (pre ++ CloseSignal c :: post) boot = Ok tt w ->
  c < connects pre ->
  c ∉ connected_clients w.
Proof.
  intros Hrun Hlt.
  destruct (SnapshotFacts.healthy_run pre boot SnapshotFacts.healthy_boot)
    as (w1 & Hr1 & Hw1 & Hn1 & _).
  destruct (SnapshotFacts.healthy_deliver (CloseSignal c) w1 Hw1)
    as (w2 & Hd & Hw2 & Hn2 & _ & Hout).
  destruct (SnapshotFacts.healthy_run post w2 Hw2)
    as (w3 & Hr3 & Hw3 & Hn3 & Hk3).
  rewrite SnapshotFacts.event_loop_turn_app in Hrun.
  unfold mbind, M_bind in Hrun.
  rewrite Hr1 in Hrun. cbn [event_loop_turn] in Hrun.
  unfold mbind, M_bind in Hrun.
  rewrite (SnapshotFacts.run_task_ok _ _ _ Hd), Hr3 in Hrun.
  injection Hrun as <-.
  cbn in Hn1.
  destruct Hw3 as (J1 & _). rewrite J1.
  apply Hk3; [lia|now apply Hout].
Qed.

(** X12.  Whatever connects and close signals came before, a broadcast
    sends once to each member of the client set and to nobody else: in
    particular never to a connection that has been reported closed, and
    never to one that was not made. *)
Theorem closed_clients_get_no_message
    (evs : list ConnEvent) (broken : gset Client) :
  exists w w' sends,
    event_loop_turn evs boot = Ok tt w
    /\ send_notification_to_clients isoformat_at broken w = Ok tt w'
    /\ trace w' = trace w ++ sends
    /\ recipients sends = elements (connected_clients w)
    /\ NoDup (recipients sends)
    /\ (forall pre c post,
          evs = pre ++ CloseSignal c :: post -> c < connects pre ->
          ~ In c (recipients sends))
    /\ (forall c, In c (recipients sends) -> c < connects evs).
Proof.
  destruct (SnapshotFacts.healthy_run evs boot SnapshotFacts.healthy_boot)
    as (w & Hrun & (J1 & J2 & _) & Hn & _).
  eexists w, _, _. split; [exact Hrun|].
  split; [apply SnapshotFacts.send_notification_spec|].
  cbn [trace]. split; [reflexivity|].
  rewrite recipients_broadcast.
  split_ands.
  - reflexivity.
  - apply NoDup_elements.
  - intros pre c post -> Hlt Hin.
    apply list_elem_of_In, elem_of_elements in Hin.
    now apply (closed_is_out pre post c w Hrun Hlt).
  - intros c Hin. apply list_elem_of_In, elem_of_elements in Hin.
    rewrite J1 in Hin. apply J2 in Hin. cbn in Hn. lia.
Qed.

(** X13.  After a script in which every close signal names an open
    connection, a broadcast reaches exactly the subscribers that have
    connected and have not been closed, each of them once. *)
Theorem broadcast_reaches_exactly_the_live
    (evs : list ConnEvent) (broken : gset Client) :
  matched evs = true ->
  exists w w' sends,
    event_loop_turn evs boot = Ok tt w
    /\ send_notification_to_clients isoformat_at broken w = Ok tt w'
    /\ trace w' = trace w ++ sends
    /\ NoDup (recipients sends)
    /\ length (recipients sends) = connects evs - disconnects evs
    /\ (forall c, In c (recipients sends)
                  <-> c < connects evs /\ ~ In (CloseSignal c) evs).
Proof.
  intros Hm.
  destruct (SnapshotFacts.matched_run evs 0 [] boot
              SnapshotFacts.tracks_boot Hm)
    as (w & Hrun & H1 & H2 & H3 & H4 & H5 & H6).
  rewrite app_nil_r in H3, H4. rewrite length_rev in H4.
  cbn [Nat.add] in *. fold (disconnects evs) in H4.
  eexists w, _, _. split; [exact Hrun|].
  split; [apply SnapshotFacts.send_notification_spec|].
  cbn [trace]. split; [reflexivity|].
  rewrite recipients_broadcast.
  split_ands.
  - apply NoDup_elements.
  - change (size (connected_clients w) = connects evs - disconnects evs).
    rewrite H2. lia.
  - intros c. rewrite <- list_elem_of_In, elem_of_elements, H2, H3.
    rewrite <- in_rev, SnapshotFacts.in_closes. reflexivity.
Qed.



Variable device_opens : nat -> bool.



End Loop.

End SnapshotMore.

(** ** The further theorems at sample inputs *)
Module MoreWitnesses.

Lemma read_failure_ends_stream_witness :
  exists h,
    Stream.stream_video_feed Sample.imencode "SimpleHTTP/0.6 Python/3.11"
      "Mon, 01 Jan 2024 12:00:00 GMT" (map Some [2; 0] ++ None :: [Some 5])
      (Stream.accepted "HTTP/1.1" false 5) = Ok (Done CaptureError) h
    /\ Stream.stdout h = ["Error: Failed to capture frame."].
Proof.
  destruct (StreamMore.read_failure_ends_stream Sample.imencode
              "SimpleHTTP/0.6 Python/3.11" "Mon, 01 Jan 2024 12:00:00 GMT"
              "HTTP/1.1" false [2; 0] [Some 5] 5)
    as (h & Hrun & _ & Hout & _).
  - repeat constructor; eexists; reflexivity.
  - cbn. lia.
  - exists h. split; [exact Hrun|exact Hout].
Defined.

Lemma sleeps_and_writes_per_part_witness :
  exists h,
    Stream.stream_video_feed Sample.imencode "SimpleHTTP/0.6 Python/3.11"
      "Mon, 01 Jan 2024 12:00:00 GMT" (map Some [2; 0; 1])
      (Stream.accepted "HTTP/0.9" true 10) = Ok StillRunning h
    /\ Stream.sleeps h = 2
    /\ Stream.peer_writes h = 4.
Proof.
  destruct (StreamMore.sleeps_and_writes_per_part Sample.imencode
              "SimpleHTTP/0.6 Python/3.11" "Mon, 01 Jan 2024 12:00:00 GMT"
              "HTTP/0.9" true [2; 0; 1] 10)
    as (h & Hrun & Hs & Hp & _).
  - repeat constructor; eexists; reflexivity.
  - cbn. lia.
  - exists h. split; [exact Hrun|]. split; [exact Hs|exact Hp].
Defined.

Lemma peer_gone_ends_stream_quietly_witness :
  exists h,
    Stream.stream_video_feed Sample.imencode "SimpleHTTP/0.6 Python/3.11"
      "Mon, 01 Jan 2024 12:00:00 GMT" (map Some [2; 3] ++ [Some 1; None])
      (Stream.accepted "HTTP/1.1" false 6) = Ok (Done Swallowed) h
    /\ Stream.stdout h = [].
Proof.
  destruct (StreamMore.peer_gone_ends_stream_quietly Sample.imencode
              "SimpleHTTP/0.6 Python/3.11" "Mon, 01 Jan 2024 12:00:00 GMT"
              "HTTP/1.1" false [2; 3] [Some 1; None] 6)
    as (h & Hrun & Hout & _).
  - cbn. lia.
  - cbn. lia.
  - exists h. split; [exact Hrun|exact Hout].
Defined.


Lemma broadcast_reaches_exactly_the_live_witness :
  exists w w' sends,
    Snapshot.event_loop_turn
      [Snapshot.Connect; Snapshot.Connect; Snapshot.CloseSignal 0]
      Snapshot.boot = Ok tt w
    /\ Snapshot.send_notification_to_clients Sample.isoformat_at ∅ w
       = Ok tt w'
    /\ length (Observe.recipients sends) = 1.
Proof.
  destruct (SnapshotMore.broadcast_reaches_exactly_the_live
              Sample.isoformat_at
              [Snapshot.Connect; Snapshot.Connect; Snapshot.CloseSignal 0] ∅)
    as (w & w' & sends & Hrun & Hsend & _ & _ & Hlen & _).
  - reflexivity.
  - exists w, w', sends. split; [exact Hrun|]. split; [exact Hsend|exact Hlen].
Defined.

Lemma connect_then_close_restores_witness :
  exists w',
    Snapshot.event_loop_turn
      [Snapshot.Connect; Snapshot.CloseSignal 0] Snapshot.boot = Ok tt w'
    /\ Snapshot.connected_clients w' = ∅.
Proof.
  destruct (SnapshotMore.connect_then_close_restores Snapshot.boot)
    as (w' & Hrun & Hc & _).
  - unfold Snapshot.healthy, Snapshot.boot. cbn.
    repeat split.
    intros c Hin. now apply not_elem_of_empty in Hin.
  - exists w'. split; [exact Hrun|exact Hc].
Defined.

End MoreWitnesses.
